(** * LTA rankings tool: table extraction, sanitization and page aggregation

    A shallow embedding of [lta_rankings_gui.pyw]: the two table extractors
    ([extract_ranking_table], [extract_online_entries_table]) and the page
    loop of [scrape_rankings], over a small model of the pandas operations
    they call.

    - Text is a [string]; a character is a code point below 256, and
      [isspace], [lower] and case-blind search are Python's on that range.
    - A table is a [DataFrame]: its column labels and its body rows, cells
      by position.  The row index is left out: every mask the program
      applies is computed from the very frame it filters, so alignment is
      positional.
    - A Python exception is a [Raise] in the [result] monad.
    - The extractors take what [pd.read_html] made of the markup; the page
      loop takes what the browser shows for each page number.
    - The page count is the ceiling of the binary64 quotient, as Python
      computes it (see [pages_needed]). *)

From Stdlib Require Import List String Ascii ZArith Lia Bool Arith.
From Stdlib Require Import DecimalString DecimalNat DecimalZ.
Import ListNotations.
Open Scope string_scope.
Open Scope list_scope.
Open Scope nat_scope.

(** ** Python strings *)

Module PyStr.

(** [str.isspace] on one character. *)
Definition isspace (c : ascii) : bool :=
  let n := nat_of_ascii c in
  ((9 <=? n) && (n <=? 13)) || ((28 <=? n) && (n <=? 32))
  || (n =? 133) || (n =? 160).

Fixpoint lstrip (s : string) : string :=
  match s with
  | EmptyString => EmptyString
  | String c r => if isspace c then lstrip r else s
  end.

Fixpoint rstrip (s : string) : string :=
  match s with
  | EmptyString => EmptyString
  | String c r =>
      match rstrip r with
      | EmptyString => if isspace c then EmptyString else String c EmptyString
      | r' => String c r'
      end
  end.

(** [s.strip()] *)
Definition strip (s : string) : string := rstrip (lstrip s).

Definition lower_char (c : ascii) : ascii :=
  let n := nat_of_ascii c in
  if ((65 <=? n) && (n <=? 90))
     || ((192 <=? n) && (n <=? 222) && negb (n =? 215))
  then ascii_of_nat (n + 32) else c.

(** [s.lower()] *)
Fixpoint lower (s : string) : string :=
  match s with
  | EmptyString => EmptyString
  | String c r => String (lower_char c) (lower r)
  end.

(** [s.startswith(p)] *)
Definition startswith (p s : string) : bool := String.prefix p s.

(** [sub in s] *)
Fixpoint contains (sub s : string) : bool :=
  String.prefix sub s
  || match s with
     | EmptyString => false
     | String _ r => contains sub r
     end.

(** [x in xs] for a list (or set) of strings. *)
Definition list_in (x : string) (xs : list string) : bool :=
  existsb (String.eqb x) xs.

(** [re.search] of an alternation of literals with [re.IGNORECASE]. *)
Definition search_nocase (alternatives : list string) (s : string) : bool :=
  existsb (fun p => contains (lower p) (lower s)) alternatives.

End PyStr.
Import PyStr.

(** ** Exceptions *)

Inductive exn : Type :=
| ValueError | KeyError | AttributeError | InvalidIndexError
| ZeroDivisionError | OverflowError | XMLSyntaxError.

Inductive result (A : Type) : Type :=
| Ok (a : A)
| Raise (e : exn).
Arguments Ok {A} a.
Arguments Raise {A} e.

Definition bind {A B : Type} (m : result A) (k : A -> result B) : result B :=
  match m with
  | Ok a => k a
  | Raise e => Raise e
  end.

Notation "x <- m ;; k" := (bind m (fun x => k))
  (at level 61, m at next level, right associativity).

(** ** The pandas operations the program uses *)

Module Pandas.

(** A cell as [read_html] leaves it: missing, text, or a number.  A number
    is carried by the text [str] prints for it. *)
Inductive cell : Type :=
| NaN
| Str (s : string)
| Num (text : string).

Record DataFrame : Type := mkFrame {
  columns : list string;
  rows : list (list cell)
}.

(** [df.columns = cols] *)
Definition set_columns (df : DataFrame) (cols : list string) : DataFrame :=
  mkFrame cols (rows df).

(** [len(df)] *)
Definition len (df : DataFrame) : nat := List.length (rows df).

(** [df.empty]: some axis has length 0. *)
Definition empty (df : DataFrame) : bool :=
  (List.length (rows df) =? 0) || (List.length (columns df) =? 0).

(** Positions of a label among the column labels. *)
Fixpoint locs (label : string) (cols : list string) (i : nat) : list nat :=
  match cols with
  | [] => []
  | c :: cs =>
      if String.eqb c label then i :: locs label cs (S i)
      else locs label cs (S i)
  end.

(** [df[label]] used as a Series.  A label that is absent is a KeyError; a
    label borne by several columns selects a DataFrame, on which the
    Series accessor [.str] that follows in the program is an
    AttributeError. *)
Definition get_loc (label : string) (cols : list string) : result nat :=
  match locs label cols 0 with
  | [] => Raise KeyError
  | [i] => Ok i
  | _ => Raise AttributeError
  end.

Definition column_at (i : nat) (df : DataFrame) : list cell :=
  map (fun r => nth i r NaN) (rows df).

Definition getitem (df : DataFrame) (label : string) : result (list cell) :=
  i <- get_loc label (columns df) ;;
  Ok (column_at i df).

(** [series.astype(str)] *)
Definition astype_str (c : cell) : string :=
  match c with
  | NaN => "nan"
  | Str s => s
  | Num t => t
  end.

(** Keep the elements whose mask entry is [True]. *)
Fixpoint select {A : Type} (mask : list bool) (xs : list A) : list A :=
  match mask, xs with
  | m :: ms, x :: xs' => if m then x :: select ms xs' else select ms xs'
  | _, _ => []
  end.

(** [df[mask]] for a boolean Series *)
Definition boolean_index (df : DataFrame) (mask : list bool) : DataFrame :=
  mkFrame (columns df) (select mask (rows df)).

(** [df.loc[:, mask]] *)
Definition loc_columns (df : DataFrame) (mask : list bool) : DataFrame :=
  mkFrame (select mask (columns df)) (map (select mask) (rows df)).

(** [df.rename(columns=mapping, inplace=True)] *)
Fixpoint lookup (mapping : list (string * string)) (c : string)
  : option string :=
  match mapping with
  | [] => None
  | (k, v) :: rest => if String.eqb k c then Some v else lookup rest c
  end.

Definition rename_label (mapping : list (string * string)) (c : string)
  : string :=
  match lookup mapping c with
  | Some v => v
  | None => c
  end.

Definition rename (df : DataFrame) (mapping : list (string * string))
  : DataFrame :=
  mkFrame (map (rename_label mapping) (columns df)) (rows df).

Definition notna (c : cell) : bool :=
  match c with
  | NaN => false
  | _ => true
  end.

(** [df.dropna(subset=[label])] *)
Definition dropna (df : DataFrame) (label : string) : result DataFrame :=
  s <- getitem df label ;;
  Ok (boolean_index df (map notna s)).

Fixpoint set_nth {A : Type} (i : nat) (v : A) (xs : list A) : list A :=
  match i, xs with
  | _, [] => []
  | 0, _ :: xs' => v :: xs'
  | S i', x :: xs' => x :: set_nth i' v xs'
  end.

Fixpoint assign_at (i : nat) (rs : list (list cell)) (vs : list cell)
  : list (list cell) :=
  match rs, vs with
  | r :: rs', v :: vs' => set_nth i v r :: assign_at i rs' vs'
  | _, _ => []
  end.

(** [df[label] = series] for a label the frame already has. *)
Definition setitem (df : DataFrame) (label : string) (s : list cell)
  : result DataFrame :=
  i <- get_loc label (columns df) ;;
  Ok (mkFrame (columns df) (assign_at i (rows df) s)).

(** [df[[label]]] for a label borne by one column. *)
Definition getitem_list (df : DataFrame) (label : string)
  : result DataFrame :=
  i <- get_loc label (columns df) ;;
  Ok (mkFrame [label] (map (fun r => [nth i r NaN]) (rows df))).

(** [series.str.lower()]: an element that is not text becomes missing. *)
Definition str_lower (c : cell) : cell :=
  match c with
  | Str s => Str (lower s)
  | _ => NaN
  end.

(** [series.isin(values)] for a set of strings. *)
Definition isin (values : list string) (c : cell) : bool :=
  match c with
  | Str s => list_in s values
  | _ => false
  end.

(** [df.drop(columns=[label], inplace=True)] *)
Definition drop_columns (df : DataFrame) (label : string)
  : result DataFrame :=
  if list_in label (columns df)
  then Ok (loc_columns df
             (map (fun c => negb (String.eqb c label)) (columns df)))
  else Raise KeyError.

(** [df.iloc[:n]] *)
Definition iloc_upto (df : DataFrame) (n : Z) : DataFrame :=
  let k :=
    if (0 <=? n)%Z then Z.to_nat n
    else List.length (rows df) - Z.to_nat (- n) in
  mkFrame (columns df) (firstn k (rows df)).

Definition labels_eqb (a b : list string) : bool :=
  if list_eq_dec string_dec a b then true else false.

(** Labels in order of first appearance. *)
Fixpoint unique (seen xs : list string) : list string :=
  match xs with
  | [] => []
  | x :: r =>
      if list_in x seen then unique seen r else x :: unique (x :: seen) r
  end.

Fixpoint is_unique (xs : list string) : bool :=
  match xs with
  | [] => true
  | x :: r => negb (list_in x r) && is_unique r
  end.

Definition first_loc (label : string) (cols : list string) : option nat :=
  match locs label cols 0 with
  | [] => None
  | i :: _ => Some i
  end.

(** Rows of a frame laid out on the labels [target]; a label the frame
    lacks is filled with missing cells.  A frame whose labels already are
    [target] is taken as it is; any other must have distinct labels. *)
Definition reindex_rows (target : list string) (df : DataFrame)
  : result (list (list cell)) :=
  if labels_eqb (columns df) target then Ok (rows df)
  else if is_unique (columns df) then
    Ok (map (fun r =>
               map (fun c =>
                      match first_loc c (columns df) with
                      | Some i => nth i r NaN
                      | None => NaN
                      end) target)
            (rows df))
  else Raise InvalidIndexError.

Fixpoint gather (target : list string) (frames : list DataFrame)
  : result (list (list cell)) :=
  match frames with
  | [] => Ok []
  | f :: rest =>
      rs <- reindex_rows target f ;;
      rest' <- gather target rest ;;
      Ok (rs ++ rest')
  end.

(** [pd.concat(frames, ignore_index=True)]: the frames stacked in order.
    Frames with one and the same label list keep it; otherwise the labels
    are the union in order of first appearance.  The cells are stacked as
    they stand.  pandas moreover gives each stacked column one dtype: a
    number of an int column that meets floats or missing cells becomes a
    float and prints differently.  That rewriting of numbers is left out;
    the properties below read a stacked frame by its labels, its rows in
    order, and its text and missing cells, never by the print of a
    number. *)
Definition concat (frames : list DataFrame) : result DataFrame :=
  match frames with
  | [] => Raise ValueError
  | f :: rest =>
      let target :=
        if forallb (fun g => labels_eqb (columns g) (columns f)) rest
        then columns f
        else unique [] (flat_map columns frames) in
      rs <- gather target frames ;;
      Ok (mkFrame target rs)
  end.

End Pandas.
Import Pandas.

(** ** [extract_ranking_table] *)

Definition rename_map : list (string * string) :=
  [("Singles points", "Singles Points"); ("Doubles points", "Doubles Points")].

(** [cols = [str(c).strip() for c in df.columns]; df.columns = cols]: a
    label of the parsed frame is given by the text [str(c)] of it. *)
Definition trim_columns (df : DataFrame) : DataFrame :=
  set_columns df (map strip (columns df)).

(** The loop body past the test, on the frame with trimmed labels. *)
Definition ranking_sanitize (df : DataFrame) : result DataFrame :=
  rank <- getitem df "Rank" ;;
  let rank_str := map astype_str rank in
  let is_bad := map (search_nocase ["page"; "results"]) rank_str in
  let df := boolean_index df (map negb is_bad) in
  player <- getitem df "Player" ;;
  let player_str := map (fun c => strip (astype_str c)) player in
  let df :=
    boolean_index df
      (map (fun s => negb (String.eqb s "") && negb (String.eqb s "Player"))
           player_str) in
  let df :=
    loc_columns df
      (map (fun c => negb (startswith "Unnamed" c)) (columns df)) in
  let df := rename df rename_map in
  Ok df.

Fixpoint ranking_scan (tables : list DataFrame) : result (option DataFrame) :=
  match tables with
  | [] => Ok None
  | df :: rest =>
      let df := trim_columns df in
      let cols := columns df in
      if negb (list_in "Rank" cols) || negb (list_in "Player" cols)
      then ranking_scan rest
      else
        out <- ranking_sanitize df ;;
        Ok (Some out)
  end.

(** The argument is what [pd.read_html(StringIO(html))] did on the markup:
    the parsed tables, or the exception it raised. *)
Definition extract_ranking_table (parsed : result (list DataFrame))
  : result (option DataFrame) :=
  match parsed with
  | Raise ValueError => Ok None
  | Raise e => Raise e
  | Ok tables => ranking_scan tables
  end.

(** ** [extract_online_entries_table] *)

Definition invalid_names : list string := [""; "name"; "nan"; "none"].

(** The loop body between the two header tests and the emptiness test, on
    the frame with trimmed labels. *)
Definition entries_clean (df : DataFrame) : result DataFrame :=
  df <-
    (if list_in "Status" (columns df) then
       status <- getitem df "Status" ;;
       let status_str := map (fun c => lower (astype_str c)) status in
       Ok (boolean_index df
             (map (fun s => negb (contains "withdrawn" s)) status_str))
     else Ok df) ;;
  df <- dropna df "Name" ;;
  name <- getitem df "Name" ;;
  df <- setitem df "Name" (map (fun c => Str (strip (astype_str c))) name) ;;
  name <- getitem df "Name" ;;
  let mask_valid :=
    map (fun c => negb (isin invalid_names (str_lower c))) name in
  Ok (boolean_index df mask_valid).

Fixpoint entries_scan (tables : list DataFrame) : result (option DataFrame) :=
  match tables with
  | [] => Ok None
  | df :: rest =>
      let df := trim_columns df in
      let cols := columns df in
      if negb (list_in "Name" cols) then entries_scan rest
      else if negb (existsb (fun c => contains "date" (lower c)) cols)
      then entries_scan rest
      else
        match entries_clean df with
        | Raise e => Raise e
        | Ok df =>
            if empty df then entries_scan rest
            else
              out <- getitem_list df "Name" ;;
              Ok (Some out)
        end
  end.

Definition extract_online_entries_table (parsed : result (list DataFrame))
  : result (option DataFrame) :=
  match parsed with
  | Raise ValueError => Ok None
  | Raise e => Raise e
  | Ok tables => entries_scan tables
  end.

(** ** [scrape_rankings] *)

(** What the browser shows for one page: the wait for a [table] element
    times out, or the page source is handed to [read_html].  A fault of the
    driver itself ends the job at once and is left out. *)
Inductive page_load : Type :=
| NoTable
| PageSource (parsed : result (list DataFrame)).

(** The ceiling of the exact quotient [a / b], for [b > 0]: the number the
    specification means by ceil(target / page size). *)
Definition ceil_div (a b : Z) : Z := (- ((- a) / b))%Z.

(** The integer nearest to [num / den], ties to the even one
    ([num >= 0], [den > 0]). *)
Definition round_half_even (num den : Z) : Z :=
  let q := (num / den)%Z in
  let r := (num mod den)%Z in
  if (2 * r <? den)%Z then q
  else if (den <? 2 * r)%Z then (q + 1)%Z
  else if Z.even q then q else (q + 1)%Z.

(** [n / d] read at the scale [2 ^ e] is [scaled_num n e / scaled_den d e]. *)
Definition scaled_num (n e : Z) : Z := (n * 2 ^ Z.max 0 (- e))%Z.
Definition scaled_den (d e : Z) : Z := (d * 2 ^ Z.max 0 e)%Z.

(** The binary exponent of [n / d]: the [e] with [2^e <= n/d < 2^(e+1)]
    ([n, d > 0]). *)
Definition log2_ratio (n d : Z) : Z :=
  let e := (Z.log2 n - Z.log2 d)%Z in
  if (scaled_den d e <=? scaled_num n e)%Z then e else (e - 1)%Z.

(** The binary64 float nearest to [n / d] ([n, d > 0]), as mantissa and
    exponent [(m, qe)] of the value [m * 2^qe]: 53 bits of mantissa at
    normal exponents, fewer below [2^-1022], ties to even; [None] when the
    rounded value is beyond the largest finite float. *)
Definition binary64_of_ratio (n d : Z) : option (Z * Z) :=
  let e := log2_ratio n d in
  let qe := (Z.max e (-1022) - 52)%Z in
  let m := round_half_even (scaled_num n qe) (scaled_den d qe) in
  if (971 <? qe)%Z || ((qe =? 971)%Z && (m =? 2 ^ 53)%Z) then None
  else Some (m, qe).

(** [math.ceil(max_players / results_per_page)] on Python ints: [/] is
    true division, which raises ZeroDivisionError on a zero divisor,
    rounds the quotient to the nearest binary64 float and raises
    OverflowError when that is out of range; [math.ceil] then gives the
    ceiling of the float as an int. *)
Definition pages_needed (max_players results_per_page : Z) : result Z :=
  if (results_per_page =? 0)%Z then Raise ZeroDivisionError
  else if (max_players =? 0)%Z then Ok 0%Z
  else
    match binary64_of_ratio (Z.abs max_players) (Z.abs results_per_page) with
    | None => Raise OverflowError
    | Some (m, qe) =>
        let num := scaled_num m (- qe) in
        let den := scaled_den 1 (- qe) in
        if xorb (max_players <? 0)%Z (results_per_page <? 0)%Z
        then Ok (- (num / den))%Z
        else Ok (ceil_div num den)
    end.

(** [range(1, n + 1)] *)
Definition page_range (n : Z) : list nat := seq 1 (Z.to_nat n).

Record loop_state : Type := mkState {
  all_tables : list DataFrame;
  opened : list nat
}.

Definition total_rows (tables : list DataFrame) : nat :=
  list_sum (map len tables).

Inductive job : Type :=
| NoData
| Saved (combined : DataFrame).

(** [if "Rank.1" in combined.columns: combined.drop(columns=["Rank.1"])] *)
Definition drop_rank1 (combined : DataFrame) : result DataFrame :=
  if list_in "Rank.1" (columns combined)
  then drop_columns combined "Rank.1"
  else Ok combined.

Section ScrapeRankings.

Variable browser : nat -> page_load.
Variable max_players : Z.

Fixpoint page_loop (pages : list nat) (st : loop_state)
  : result loop_state :=
  match pages with
  | [] => Ok st
  | page :: rest =>
      let st := mkState (all_tables st) (opened st ++ [page]) in
      match browser page with
      | NoTable => page_loop rest st
      | PageSource parsed =>
          match extract_ranking_table parsed with
          | Raise e => Raise e
          | Ok df_page =>
              let st :=
                match df_page with
                | Some df =>
                    if negb (empty df)
                    then mkState (all_tables st ++ [df]) (opened st)
                    else st
                | None => st
                end in
              if (max_players <=? Z.of_nat (total_rows (all_tables st)))%Z
              then Ok st
              else page_loop rest st
          end
      end
  end.

(** The steps after the loop. *)
Definition finish (tables : list DataFrame) : result job :=
  match tables with
  | [] => Ok NoData
  | _ =>
      combined <- concat tables ;;
      let combined := iloc_upto combined max_players in
      combined <- drop_rank1 combined ;;
      Ok (Saved combined)
  end.

Definition scrape_rankings (results_per_page : Z)
  : result (list nat * job) :=
  n <- pages_needed max_players results_per_page ;;
  st <- page_loop (page_range n) (mkState [] []) ;;
  j <- finish (all_tables st) ;;
  Ok (opened st, j).

End ScrapeRankings.

(** ** Page addresses of [scrape_rankings] *)

(** [str(n)] of an int, in decimal. *)
Definition str_nat (n : nat) : string :=
  NilEmpty.string_of_uint (Nat.to_uint n).

Definition str_int (z : Z) : string :=
  NilEmpty.string_of_int (Z.to_int z).

(** [url if page == 1 else f"{url}&p={page}&ps={results_per_page}"] *)
Definition page_url (url : string) (results_per_page : Z) (page : nat)
  : string :=
  if page =? 1 then url
  else String.append url
         (String.append "&p="
            (String.append (str_nat page)
               (String.append "&ps=" (str_int results_per_page)))).

(** ** [scrape_tournament_players] *)

Inductive tournament_job : Type :=
| NoEntries
| SavedEntries (df_online : DataFrame).

(** The final clean of the tournament job, with its own placeholder set. *)
Definition final_invalid_names : list string := [""; "nan"; "none"].

Definition final_clean (df_online : DataFrame) : result DataFrame :=
  df <- dropna df_online "Name" ;;
  name <- getitem df "Name" ;;
  df <- setitem df "Name" (map (fun c => Str (strip (astype_str c))) name) ;;
  name <- getitem df "Name" ;;
  Ok (boolean_index df
        (map (fun c => negb (isin final_invalid_names (str_lower c))) name)).

(** The argument is what the browser shows for the tournament page. *)
Definition scrape_tournament_players (load : page_load)
  : result tournament_job :=
  match load with
  | NoTable => Ok NoEntries
  | PageSource parsed =>
      df_online <- extract_online_entries_table parsed ;;
      match df_online with
      | None => Ok NoEntries
      | Some df =>
          if empty df then Ok NoEntries
          else
            df <- final_clean df ;;
            Ok (SavedEntries df)
      end
  end.

(** ** The button handlers of [main_gui] *)

(** [s.endswith(suffix)] *)
Fixpoint endswith (suffix s : string) : bool :=
  String.eqb s suffix
  || match s with
     | EmptyString => false
     | String _ r => endswith suffix r
     end.

(** [name = entered.strip() or default], then [".csv"] appended unless the
    lowercased name ends with it. *)
Definition csv_filename (entered default : string) : string :=
  let filename :=
    if String.eqb (strip entered) "" then default else strip entered in
  if endswith ".csv" (lower filename) then filename
  else String.append filename ".csv".

(** The text fields of the form. *)
Record form : Type := mkForm {
  rankings_url_var : string;
  max_players_var : string;
  tournament_url_var : string;
  output_folder_var : string;
  rankings_file_var : string;
  tournament_file_var : string
}.

(** What a handler does: an error box, or a worker started on a job. *)
Inductive action : Type :=
| ShowError (title message : string)
| RunRankings (url : string) (max_players results_per_page : Z)
              (output_csv : string)
| RunTournament (url output_csv : string).

Section Handlers.

(** [int(s)] on text, [None] for ValueError; [os.path.join]. *)
Variable py_int : string -> option Z.
Variable path_join : string -> string -> string.

Definition start_rankings (f : form) : action :=
  match py_int (strip (max_players_var f)) with
  | None =>
      ShowError "Invalid input" "Max players must be a positive integer."
  | Some max_players =>
      if (max_players <=? 0)%Z
      then ShowError "Invalid input" "Max players must be a positive integer."
      else
        let url := strip (rankings_url_var f) in
        if String.eqb url ""
        then ShowError "Invalid input" "Please enter a rankings URL."
        else
          let folder := strip (output_folder_var f) in
          if String.eqb folder ""
          then ShowError "Invalid folder" "Please select a folder."
          else
            let filename :=
              csv_filename (rankings_file_var f) "rankings_downloaded.csv" in
            RunRankings url max_players 25 (path_join folder filename)
  end.

Definition start_tournament (f : form) : action :=
  let url := strip (tournament_url_var f) in
  if String.eqb url ""
  then ShowError "Invalid input" "Please enter a tournament URL."
  else
    let folder := strip (output_folder_var f) in
    if String.eqb folder ""
    then ShowError "Invalid folder" "Please select a folder."
    else
      let filename :=
        csv_filename (tournament_file_var f) "tournament_players.csv" in
      RunTournament url (path_join folder filename).

End Handlers.

(** ** The vocabulary of the properties, in the specification's words *)

(** A row as a mapping from label to cell. *)
Definition cell_of (cols : list string) (row : list cell) (label : string)
  : cell :=
  match first_loc label cols with
  | Some i => nth i row NaN
  | None => NaN
  end.

(** Exactly one column bears the label.  [read_html] numbers a repeated
    header text ("Rank", "Rank.1"), so the frames it hands over bear each
    text label once; on a label borne twice the program raises (see
    [get_loc]). *)
Definition once (label : string) (cols : list string) : Prop :=
  count_occ string_dec cols label = 1.

(** Every row has one cell per column. *)
Definition rectangular (cols : list string) (rs : list (list cell)) : Prop :=
  Forall (fun r => List.length r = List.length cols) rs.

(** Ranking noise: a pagination row or a repeated header row. *)
Definition ranking_noise (cols : list string) (row : list cell) : bool :=
  let rank := lower (astype_str (cell_of cols row "Rank")) in
  let player := strip (astype_str (cell_of cols row "Player")) in
  contains "page" rank || contains "results" rank
  || String.eqb player "" || String.eqb player "Player".

(** The two row masks of the ranking pipeline, cell by cell. *)
Definition rank_ok (c : cell) : bool :=
  negb (search_nocase ["page"; "results"] (astype_str c)).

Definition player_ok (c : cell) : bool :=
  let s := strip (astype_str c) in
  negb (String.eqb s "") && negb (String.eqb s "Player").

Definition unnamed (c : string) : bool := startswith "Unnamed" c.

(** Positions, in ascending order, of the labels satisfying [keep]. *)
Definition positions (keep : string -> bool) (cols : list string) : list nat :=
  filter (fun i => keep (nth i cols "")) (seq 0 (List.length cols)).

(** The cells of a row at the given positions. *)
Definition project (ps : list nat) (row : list cell) : list cell :=
  map (fun i => nth i row NaN) ps.

(** An entry row that the entries pipeline retains. *)
Definition entry_kept (cols : list string) (row : list cell) : bool :=
  (if list_in "Status" cols
   then negb (contains "withdrawn"
                (lower (astype_str (cell_of cols row "Status"))))
   else true)
  && notna (cell_of cols row "Name")
  && negb (list_in (lower (strip (astype_str (cell_of cols row "Name"))))
             invalid_names).

Definition name_valid (c : cell) : bool :=
  negb (list_in (lower (strip (astype_str c))) invalid_names).

(** A row with its Name cell, at position [i], stringified and trimmed. *)
Definition with_trimmed_name (i : nat) (row : list cell) : list cell :=
  set_nth i (Str (strip (astype_str (nth i row NaN)))) row.

(** A row of an entries result: one cell, a trimmed name that is no
    placeholder. *)
Definition clean_name_row (row : list cell) : Prop :=
  exists s, row = [Str (strip s)]
            /\ list_in (lower (strip s)) invalid_names = false.

(** Two cells that agree but for the print of a number. *)
Definition cell_alike (c c' : cell) : Prop :=
  match c, c' with
  | NaN, NaN => True
  | Str s, Str s' => s = s'
  | Num _, Num _ => True
  | _, _ => False
  end.

Definition row_alike (r r' : list cell) : Prop := Forall2 cell_alike r r'.

(** A Rank cell that, when it is text, is no pagination text; a Player
    cell that, when it is text, is neither blank nor the header.  A missing
    or numeric cell passes both. *)
Definition rank_text_ok (c : cell) : Prop :=
  match c with
  | Str s => search_nocase ["page"; "results"] s = false
  | _ => True
  end.

Definition player_text_ok (c : cell) : Prop :=
  match c with
  | Str s => strip s <> "" /\ strip s <> "Player"
  | _ => True
  end.

(** The two header tests, on a parsed frame. *)
Definition has_ranking_headers (df : DataFrame) : Prop :=
  In "Rank" (map strip (columns df)) /\ In "Player" (map strip (columns df)).

Definition has_entries_headers (df : DataFrame) : Prop :=
  In "Name" (map strip (columns df))
  /\ exists c, In c (map strip (columns df))
               /\ contains "date" (lower c) = true.

(** A candidate that the entries scan passes over: it fails the header
    tests, or passes them and is cleaned down to no row at all. *)
Definition passed_over (t : DataFrame) : Prop :=
  ~ has_entries_headers t
  \/ (has_entries_headers t
      /\ exists d, entries_clean (trim_columns t) = Ok d /\ rows d = []).

(** What page [p] adds to the accumulated tables. *)
Definition page_tables (browser : nat -> page_load) (p : nat)
  : list DataFrame :=
  match browser p with
  | NoTable => []
  | PageSource parsed =>
      match extract_ranking_table parsed with
      | Ok (Some df) => if empty df then [] else [df]
      | _ => []
      end
  end.

(** Page [p] shows a source on which the ranking extractor raises. *)
Definition page_raises (browser : nat -> page_load) (p : nat) : Prop :=
  exists parsed e,
    browser p = PageSource parsed /\ extract_ranking_table parsed = Raise e.

(** The tables accumulated over pages [1..k]. *)
Definition gathered (browser : nat -> page_load) (k : nat) : list DataFrame :=
  flat_map (page_tables browser) (seq 1 k).

(** A row of an entries result, spelled out: one text cell, trimmed, not
    blank and no placeholder. *)
Definition proper_name_row (row : list cell) : Prop :=
  exists s, row = [Str s] /\ strip s = s /\ s <> ""
            /\ list_in (lower s) invalid_names = false.

Definition final_valid (c : cell) : bool :=
  negb (list_in (lower (strip (astype_str c))) final_invalid_names).

(** ** Sample tables *)

Module Samples.

(** A table whose header row repeats a label after trimming. *)
Definition twice_ranked : DataFrame :=
  mkFrame ["Rank"; "Player"; "Rank "] [ [Str "1"; Str "Ann Lee"; Str "1"] ].

(** A ranking table with an unlabeled first column, a repeated header row,
    a row without a player and two pagination rows. *)
Definition ranking : DataFrame :=
  mkFrame ["Unnamed: 0"; "Rank"; " Player "; "Singles points"; "County"]
    [ [NaN; Str "1"; Str "Ann Lee"; Str "1200"; Str "Kent"];
      [NaN; Str "2"; Str "Bo Chen"; Str "1100"; Str "Avon"];
      [NaN; Str "Rank"; Str "Player"; Str "Singles points"; Str "County"];
      [NaN; Str "3"; NaN; Str "900"; NaN];
      [NaN; Str "Page 1 of 4"; Str "Next"; NaN; NaN];
      [NaN; Str "25 RESULTS per page"; Str "Show"; NaN; NaN] ].

(** A table of another kind. *)
Definition clubs : DataFrame :=
  mkFrame ["Club"; "Player"] [ [Str "Kent LTC"; Str "Ann Lee"] ].

(** A ranking table holding a pagination row only. *)
Definition pager : DataFrame :=
  mkFrame ["Rank"; "Player"] [ [Str "Page 2 of 4"; Str "Next"] ].

(** An entries table: a withdrawn entry, placeholder names, a padded
    name. *)
Definition entries : DataFrame :=
  mkFrame ["Name"; "Date of entry"; "Status"]
    [ [Str "Ann Lee"; Str "01/02/2025"; Str "Accepted"];
      [Str "Bo Chen"; Str "02/02/2025"; Str "WithDrawn"];
      [NaN; Str "02/02/2025"; Str "Accepted"];
      [Str ""; Str "03/02/2025"; NaN];
      [Str "Name"; Str "Date of entry"; Str "Status"];
      [Str "NaN"; Str "03/02/2025"; NaN];
      [Str "None"; Str "03/02/2025"; NaN];
      [Str "  "; Str "03/02/2025"; NaN];
      [Str "  Alex Smith "; Str "04/02/2025"; NaN] ].

(** An entries table whose only entry has withdrawn. *)
Definition entries_withdrawn : DataFrame :=
  mkFrame ["Name"; "Entry Date"; "Status"]
    [ [Str "Cy Diaz"; Str "01/02/2025"; Str "Withdrawn"] ].

(** A concatenated result without the artifact column. *)
Definition combined_plain : DataFrame :=
  mkFrame ["Rank"; "Player"]
    [ [Num "1"; Str "Ann Lee"]; [Num "2"; Str "Bo Chen"] ].

Definition ranking_page2 : DataFrame :=
  mkFrame ["Rank"; "Player"; "Rank.1"]
    [ [Num "26"; Str "Cy Diaz"; Num "26"];
      [Num "27"; Str "Di Eto"; Num "27"];
      [Num "28"; Str "Ed Fry"; Num "28"] ].

(** A site showing three ranking rows on each of its first two pages, no
    table on the third and one row on the fourth. *)
Definition page_of (players : list string) : DataFrame :=
  mkFrame ["Rank"; "Player"] (map (fun n => [Str "-"; Str n]) players).

Definition site (page : nat) : page_load :=
  match page with
  | 1 => PageSource (Ok [clubs; page_of ["Ann"; "Bo"; "Cy"]])
  | 2 => PageSource (Ok [page_of ["Di"; "Ed"; "Flo"]])
  | 3 => NoTable
  | 4 => PageSource (Ok [page_of ["Gus"]])
  | _ => PageSource (Raise ValueError)
  end.

End Samples.

(** ** Sample form input *)

Module SampleForm.

(** A stand-in for [int] on the digits-only texts used below, and for
    [os.path.join] on a POSIX system with a relative file name. *)
Definition digits (s : string) : option Z :=
  if String.eqb s "" then None
  else option_map (fun d => Z.of_nat (Nat.of_uint d))
                  (NilEmpty.uint_of_string s).

Definition join (folder name : string) : string :=
  String.append folder (String.append "/" name).

Definition filled : form :=
  mkForm " https://lta.example/ranking?id=1 " "40 "
         "https://lta.example/event?id=2" "/home/ann/lta"
         "juniors" " entries.CSV".

End SampleForm.

(** * Proofs *)

(** The header tests on a concrete frame, by evaluation. *)
Ltac lacks_headers :=
  let H := fresh "H" in
  intros [H _]; vm_compute in H; intuition discriminate.

Ltac has_ranking := split; vm_compute; intuition.

Ltac has_entries date :=
  split; [vm_compute; intuition|];
  exists date; split; [vm_compute; intuition | reflexivity].

(** ** Lists and masks *)

Section Masks.

Context {A : Type}.

Lemma select_map (p : A -> bool) (xs : list A) :
  select (map p xs) xs = filter p xs.
Proof.
  induction xs as [|x xs IH]; simpl; [reflexivity|].
  destruct (p x); rewrite IH; reflexivity.
Qed.

Lemma select_map_via {B : Type} (p : B -> bool) (g : A -> B) (xs : list A) :
  select (map p (map g xs)) xs = filter (fun x => p (g x)) xs.
Proof. rewrite map_map. apply select_map. Qed.

Lemma filter_filter (p q : A -> bool) (xs : list A) :
  filter p (filter q xs) = filter (fun x => q x && p x) xs.
Proof.
  induction xs as [|x xs IH]; simpl; [reflexivity|].
  destruct (q x); simpl; [destruct (p x)|]; rewrite IH; reflexivity.
Qed.

Lemma select_all_true (q : A -> bool) (xs : list A) :
  Forall (fun x => q x = true) xs -> select (map q xs) xs = xs.
Proof.
  intros H. rewrite select_map. induction H; simpl; [reflexivity|].
  rewrite H. f_equal. assumption.
Qed.

End Masks.

Lemma filter_seq_shift (p : nat -> bool) (a n : nat) :
  filter p (seq (S a) n) = map S (filter (fun i => p (S i)) (seq a n)).
Proof.
  revert a. induction n as [|n IH]; intros a; simpl; [reflexivity|].
  destruct (p (S a)); simpl; rewrite IH; reflexivity.
Qed.

(** A column mask applied to a rectangular row keeps the cells at the
    positions of the kept labels. *)
Lemma select_project (keep : string -> bool) (cols : list string)
      (r : list cell) :
  List.length r = List.length cols ->
  select (map keep cols) r = project (positions keep cols) r.
Proof.
  unfold project, positions.
  revert r. induction cols as [|c cols IH]; intros r Hlen.
  - destruct r; reflexivity.
  - destruct r as [|x r]; [discriminate|].
    simpl in Hlen. injection Hlen as Hlen.
    cbn [map select List.length seq filter nth].
    rewrite filter_seq_shift.
    destruct (keep c); cbn [map nth]; rewrite map_map; cbn [nth];
      rewrite (IH r Hlen); reflexivity.
Qed.

Lemma select_labels (keep : string -> bool) (cols : list string) :
  select (map keep cols) cols
  = map (fun i => nth i cols "") (positions keep cols).
Proof.
  unfold positions.
  induction cols as [|c cols IH]; [reflexivity|].
  cbn [map select List.length seq filter nth].
  rewrite filter_seq_shift.
  destruct (keep c); cbn [map nth]; rewrite map_map; cbn [nth];
    rewrite IH; reflexivity.
Qed.

(** ** Looking a label up *)

Lemma locs_length (label : string) (cols : list string) (i : nat) :
  List.length (locs label cols i) = count_occ string_dec cols label.
Proof.
  revert i. induction cols as [|c cols IH]; intros i; simpl; [reflexivity|].
  destruct (string_dec c label) as [->|Hne].
  - rewrite String.eqb_refl. simpl. f_equal. apply IH.
  - apply String.eqb_neq in Hne. rewrite Hne. apply IH.
Qed.

Lemma get_loc_once (label : string) (cols : list string) :
  once label cols ->
  exists i, get_loc label cols = Ok i /\ first_loc label cols = Some i.
Proof.
  unfold once, get_loc, first_loc. intros H.
  rewrite <- (locs_length label cols 0) in H.
  destruct (locs label cols 0) as [|i [|i' l]]; try discriminate.
  exists i. split; reflexivity.
Qed.

Lemma get_loc_first (label : string) (cols : list string) (i : nat) :
  get_loc label cols = Ok i -> first_loc label cols = Some i.
Proof.
  unfold get_loc, first_loc.
  destruct (locs label cols 0) as [|k [|k' l]]; intros H; try discriminate.
  injection H as ->. reflexivity.
Qed.

Lemma get_loc_ok_once (label : string) (cols : list string) (i : nat) :
  get_loc label cols = Ok i -> once label cols.
Proof.
  unfold get_loc, once. rewrite <- (locs_length label cols 0).
  destruct (locs label cols 0) as [|k [|k' l]]; intros H; try discriminate.
  reflexivity.
Qed.

Lemma list_in_In (x : string) (xs : list string) :
  list_in x xs = true <-> In x xs.
Proof.
  unfold list_in. rewrite existsb_exists. split.
  - intros (y & Hy & Heq). apply String.eqb_eq in Heq. subst. assumption.
  - intros H. exists x. split; [assumption | apply String.eqb_refl].
Qed.

Lemma once_list_in (label : string) (cols : list string) :
  once label cols -> list_in label cols = true.
Proof.
  unfold once. intros H. apply list_in_In.
  apply (count_occ_In string_dec). lia.
Qed.

Lemma cell_of_loc (cols : list string) (r : list cell) (label : string)
      (i : nat) :
  get_loc label cols = Ok i -> cell_of cols r label = nth i r NaN.
Proof.
  intros H. unfold cell_of. rewrite (get_loc_first _ _ _ H). reflexivity.
Qed.

(** ** The ranking pipeline on one candidate *)

Lemma ranking_sanitize_eq (df : DataFrame) (i j : nat) :
  get_loc "Rank" (columns df) = Ok i ->
  get_loc "Player" (columns df) = Ok j ->
  ranking_sanitize df
  = Ok (mkFrame
          (map (rename_label rename_map)
               (filter (fun c => negb (unnamed c)) (columns df)))
          (map (select (map (fun c => negb (unnamed c)) (columns df)))
               (filter (fun r => rank_ok (nth i r NaN)
                                 && player_ok (nth j r NaN))
                       (rows df)))).
Proof.
  intros Hi Hj. unfold ranking_sanitize, getitem.
  rewrite Hi. cbn [bind boolean_index columns]. rewrite Hj.
  cbn [bind]. unfold rename, loc_columns, boolean_index, column_at.
  cbn [columns rows]. f_equal. f_equal.
  - f_equal. apply select_map.
  - rewrite !map_map, select_map, select_map, filter_filter. reflexivity.
Qed.

Lemma ranking_noise_ok (cols : list string) (r : list cell) (i j : nat) :
  get_loc "Rank" cols = Ok i ->
  get_loc "Player" cols = Ok j ->
  negb (ranking_noise cols r)
  = rank_ok (nth i r NaN) && player_ok (nth j r NaN).
Proof.
  intros Hi Hj. unfold ranking_noise, rank_ok, player_ok, search_nocase.
  rewrite (cell_of_loc _ _ _ _ Hi), (cell_of_loc _ _ _ _ Hj).
  cbn [existsb]. change (lower "page") with "page".
  change (lower "results") with "results".
  rewrite orb_false_r, !negb_orb, andb_assoc. reflexivity.
Qed.

Lemma ranking_test_has (df : DataFrame) :
  let cols := columns (trim_columns df) in
  negb (list_in "Rank" cols) || negb (list_in "Player" cols) = false
  <-> has_ranking_headers df.
Proof.
  unfold has_ranking_headers. cbn [trim_columns set_columns columns].
  rewrite orb_false_iff, !negb_false_iff, !list_in_In. reflexivity.
Qed.

Lemma ranking_test_lacks (df : DataFrame) :
  ~ has_ranking_headers df ->
  let cols := columns (trim_columns df) in
  negb (list_in "Rank" cols) || negb (list_in "Player" cols) = true.
Proof.
  intros H cols.
  destruct (negb (list_in "Rank" cols) || negb (list_in "Player" cols))
    eqn:E; [reflexivity|].
  exfalso. apply H, ranking_test_has, E.
Qed.

Lemma ranking_scan_skip (pre rest : list DataFrame) :
  Forall (fun t => ~ has_ranking_headers t) pre ->
  ranking_scan (pre ++ rest) = ranking_scan rest.
Proof.
  induction 1 as [|t pre Ht _ IH]; [reflexivity|].
  cbn [app ranking_scan]. cbv zeta.
  rewrite (ranking_test_lacks t Ht). exact IH.
Qed.

Lemma ranking_scan_hit (f : DataFrame) (post : list DataFrame) :
  has_ranking_headers f ->
  ranking_scan (f :: post)
  = (out <- ranking_sanitize (trim_columns f) ;; Ok (Some out)).
Proof.
  intros H. cbn [ranking_scan]. cbv zeta.
  apply ranking_test_has in H. cbv zeta in H. rewrite H. reflexivity.
Qed.

Lemma once_headers (df : DataFrame) :
  once "Rank" (map strip (columns df)) ->
  once "Player" (map strip (columns df)) ->
  has_ranking_headers df.
Proof.
  intros Hr Hp. split; apply list_in_In, once_list_in; assumption.
Qed.

(** The pipeline on a candidate whose Rank and Player labels are borne by
    one column each: it returns, and the result is the row filter followed
    by the column mask and the renaming. *)
Lemma ranking_sanitize_once (df : DataFrame) :
  let cols := map strip (columns df) in
  once "Rank" cols -> once "Player" cols ->
  ranking_sanitize (trim_columns df)
  = Ok (mkFrame
          (map (rename_label rename_map)
               (filter (fun c => negb (unnamed c)) cols))
          (map (select (map (fun c => negb (unnamed c)) cols))
               (filter (fun r => negb (ranking_noise cols r)) (rows df)))).
Proof.
  intros cols Hr Hp.
  destruct (get_loc_once _ _ Hr) as (i & Hi & _).
  destruct (get_loc_once _ _ Hp) as (j & Hj & _).
  rewrite (ranking_sanitize_eq (trim_columns df) i j Hi Hj).
  cbn [trim_columns set_columns columns rows]. fold cols.
  do 3 f_equal. apply filter_ext. intros r. symmetry.
  apply ranking_noise_ok; assumption.
Qed.

(** ** Properties of the ranking extractor *)

(** The row steps of the ranking extractor, as the program performs them.
    On a parsed table whose trimmed headers bear Rank and Player (one column
    each) it returns a frame whose rows are, in the original order, the body
    rows that [ranking_noise] does not flag: a row is flagged when the text
    [astype(str)] makes of its Rank cell contains "page" or "results" in any
    letter case, or the text it makes of its Player cell, trimmed, is empty
    or is "Player".  A missing cell reads "nan" there, so a row with no
    player at all is not flagged.  Each surviving row keeps its cells, less
    those under the labels that start with "Unnamed". *)
Theorem ranking_rows_sanitized (df : DataFrame) :
  once "Rank" (map strip (columns df)) ->
  once "Player" (map strip (columns df)) ->
  exists out,
    extract_ranking_table (Ok [df]) = Ok (Some out)
    /\ rows out
       = map (select (map (fun c => negb (unnamed c)) (map strip (columns df))))
             (filter (fun r => negb (ranking_noise (map strip (columns df)) r))
                     (rows df)).
Proof.
  intros Hr Hp. eexists. split.
  - cbn [extract_ranking_table].
    rewrite (ranking_scan_hit df [] (once_headers df Hr Hp)).
    rewrite (ranking_sanitize_once df Hr Hp). reflexivity.
  - reflexivity.
Qed.

Lemma ranking_rows_sanitized_witness :
  once "Rank" (map strip (columns Samples.ranking))
  /\ once "Player" (map strip (columns Samples.ranking))
  /\ exists out,
       extract_ranking_table (Ok [Samples.ranking]) = Ok (Some out)
       /\ rows out
          = map (select (map (fun c => negb (unnamed c))
                             (map strip (columns Samples.ranking))))
                (filter
                   (fun r =>
                      negb (ranking_noise
                              (map strip (columns Samples.ranking)) r))
                   (rows Samples.ranking)).
Proof.
  split; [reflexivity|]. split; [reflexivity|].
  apply (ranking_rows_sanitized Samples.ranking); reflexivity.
Defined.

(** C1.  The program falls short of dropping every row whose Player cell
    is empty.  On a table with Rank and Player borne by one column each, a
    row whose Player cell is missing, and whose Rank is no pagination text,
    is returned among the results: the missing cell is turned into the text
    "nan" before the test for the empty string.  (The entries extractor
    drops missing names before it stringifies them.) *)
Theorem ranking_missing_player_kept (df : DataFrame) (r : list cell) :
  once "Rank" (map strip (columns df)) ->
  once "Player" (map strip (columns df)) ->
  In r (rows df) ->
  cell_of (map strip (columns df)) r "Player" = NaN ->
  rank_ok (cell_of (map strip (columns df)) r "Rank") = true ->
  exists out,
    extract_ranking_table (Ok [df]) = Ok (Some out)
    /\ In (select (map (fun c => negb (unnamed c)) (map strip (columns df)))
                  r)
          (rows out).
Proof.
  intros Hr Hp Hin Hnan Hrank. eexists. split.
  - cbn [extract_ranking_table].
    rewrite (ranking_scan_hit df [] (once_headers df Hr Hp)).
    rewrite (ranking_sanitize_once df Hr Hp). reflexivity.
  - cbn [rows]. apply in_map. apply filter_In. split; [exact Hin|].
    destruct (get_loc_once _ _ Hr) as (i & Hi & _).
    destruct (get_loc_once _ _ Hp) as (j & Hj & _).
    rewrite (ranking_noise_ok _ r i j Hi Hj).
    rewrite <- (cell_of_loc _ r _ _ Hi), <- (cell_of_loc _ r _ _ Hj).
    rewrite Hrank, Hnan. reflexivity.
Qed.

Lemma ranking_missing_player_kept_witness :
  exists out,
    extract_ranking_table (Ok [Samples.ranking]) = Ok (Some out)
    /\ In [Str "3"; NaN; Str "900"; NaN] (rows out).
Proof.
  apply (ranking_missing_player_kept
           Samples.ranking [NaN; Str "3"; NaN; Str "900"; NaN]);
    try reflexivity.
  vm_compute. intuition.
Defined.

(** The sample table, worked out: the header row and both pagination rows
    go, the row without a player stays. *)
Example ranking_sample_rows :
  extract_ranking_table (Ok [Samples.ranking])
  = Ok (Some (mkFrame ["Rank"; "Player"; "Singles Points"; "County"]
                [ [Str "1"; Str "Ann Lee"; Str "1200"; Str "Kent"];
                  [Str "2"; Str "Bo Chen"; Str "1100"; Str "Avon"];
                  [Str "3"; NaN; Str "900"; NaN] ])).
Proof. vm_compute. reflexivity. Qed.

(** A label borne by two columns makes the extractor raise. *)
Example ranking_twice_ranked_raises :
  extract_ranking_table (Ok [Samples.twice_ranked]) = Raise AttributeError.
Proof. vm_compute. reflexivity. Qed.

(** C2.  The ranking extractor returns what the pipeline makes of the first
    parsed table whose trimmed headers contain both "Rank" and "Player";
    the tables before it, which fail the test, and all tables after it do
    not enter the result.  With Rank and Player borne by one column each,
    the pipeline returns a frame. *)
Theorem first_ranking_candidate_selected
        (pre : list DataFrame) (f : DataFrame) (post : list DataFrame) :
  Forall (fun t => ~ has_ranking_headers t) pre ->
  has_ranking_headers f ->
  extract_ranking_table (Ok (pre ++ f :: post))
  = (out <- ranking_sanitize (trim_columns f) ;; Ok (Some out))
  /\ (once "Rank" (map strip (columns f)) ->
      once "Player" (map strip (columns f)) ->
      exists out, extract_ranking_table (Ok (pre ++ f :: post)) = Ok (Some out)
                  /\ extract_ranking_table (Ok [f]) = Ok (Some out)).
Proof.
  intros Hpre Hf.
  assert (E : extract_ranking_table (Ok (pre ++ f :: post))
              = (out <- ranking_sanitize (trim_columns f) ;; Ok (Some out))).
  { cbn [extract_ranking_table].
    rewrite (ranking_scan_skip pre (f :: post) Hpre).
    apply ranking_scan_hit, Hf. }
  split; [exact E|].
  intros Hr Hp. rewrite E. cbn [extract_ranking_table].
  rewrite (ranking_scan_hit f [] Hf).
  rewrite (ranking_sanitize_once f Hr Hp). eexists. split; reflexivity.
Qed.

Lemma first_ranking_candidate_selected_witness :
  exists out,
    extract_ranking_table
      (Ok ([Samples.clubs] ++ Samples.ranking :: [Samples.ranking_page2]))
    = Ok (Some out)
    /\ extract_ranking_table (Ok [Samples.ranking]) = Ok (Some out).
Proof.
  refine (proj2 (first_ranking_candidate_selected
                   [Samples.clubs] Samples.ranking [Samples.ranking_page2]
                   _ _) _ _).
  - repeat constructor; lacks_headers.
  - has_ranking.
  - reflexivity.
  - reflexivity.
Defined.

Lemma rename_label_cases (c : string) :
  rename_label rename_map c = "Singles Points" /\ c = "Singles points"
  \/ rename_label rename_map c = "Doubles Points" /\ c = "Doubles points"
  \/ rename_label rename_map c = c /\ c <> "Singles points"
     /\ c <> "Doubles points".
Proof.
  unfold rename_label, rename_map, lookup.
  destruct (String.eqb_spec "Singles points" c) as [<-|H1]; [left; auto|].
  destruct (String.eqb_spec "Doubles points" c) as [<-|H2];
    [right; left; auto|].
  right; right. repeat split; congruence.
Qed.

Lemma rename_label_named (c : string) :
  unnamed c = false -> unnamed (rename_label rename_map c) = false.
Proof.
  intros H.
  destruct (rename_label_cases c) as [[-> _]|[[-> _]|[-> _]]];
    [reflexivity | reflexivity | exact H].
Qed.

(** C6.  On a ranking candidate (Rank and Player borne by one column each,
    one cell per column in every row) the column steps remove every column
    whose trimmed label starts with "Unnamed" and no other, then rename
    "Singles points" to "Singles Points" and "Doubles points" to
    "Doubles Points" and leave every other label as it is.  The rows that
    passed the row filter all remain, in order, each with its cells at the
    positions of the kept columns unchanged. *)
Theorem ranking_columns_normalized (df : DataFrame) :
  once "Rank" (map strip (columns df)) ->
  once "Player" (map strip (columns df)) ->
  rectangular (columns df) (rows df) ->
  let cols := map strip (columns df) in
  let kept := positions (fun c => negb (unnamed c)) cols in
  exists out,
    extract_ranking_table (Ok [df]) = Ok (Some out)
    /\ columns out = map (fun i => rename_label rename_map (nth i cols "")) kept
    /\ (forall i, i < List.length cols ->
                  (In i kept <-> unnamed (nth i cols "") = false))
    /\ Forall (fun c => unnamed c = false) (columns out)
    /\ rows out
       = map (project kept)
             (filter (fun r => negb (ranking_noise cols r)) (rows df))
    /\ rename_label rename_map "Singles points" = "Singles Points"
    /\ rename_label rename_map "Doubles points" = "Doubles Points"
    /\ (forall c, c <> "Singles points" -> c <> "Doubles points" ->
                  rename_label rename_map c = c).
Proof.
  intros Hr Hp Hrect cols kept. eexists. split.
  { cbn [extract_ranking_table].
    rewrite (ranking_scan_hit df [] (once_headers df Hr Hp)).
    rewrite (ranking_sanitize_once df Hr Hp). reflexivity. }
  cbn [columns rows]. fold cols.
  repeat split.
  - rewrite <- (select_map (fun c => negb (unnamed c)) cols), select_labels.
    rewrite map_map. reflexivity.
  - unfold kept, positions. rewrite filter_In, negb_true_iff. tauto.
  - unfold kept, positions. intros Hu. apply filter_In. split.
    + apply in_seq. lia.
    + rewrite Hu. reflexivity.
  - apply Forall_forall. intros c Hc. apply in_map_iff in Hc.
    destruct Hc as (c0 & <- & Hc0). apply filter_In in Hc0.
    apply rename_label_named. destruct Hc0 as [_ Hc0].
    apply negb_true_iff. exact Hc0.
  - apply map_ext_in. intros r Hin. apply filter_In in Hin.
    apply select_project. unfold cols. rewrite length_map.
    unfold rectangular in Hrect. rewrite Forall_forall in Hrect.
    apply Hrect. tauto.
  - intros c H1 H2.
    destruct (rename_label_cases c) as [[_ ->]|[[_ ->]|[-> _]]]; congruence.
Qed.

Lemma ranking_columns_normalized_witness :
  exists out,
    extract_ranking_table (Ok [Samples.ranking]) = Ok (Some out)
    /\ columns out = ["Rank"; "Player"; "Singles Points"; "County"]
    /\ List.length (rows out) = 3.
Proof.
  destruct (ranking_columns_normalized Samples.ranking)
    as (out & E & Hc & _ & _ & Hrows & _).
  - reflexivity.
  - reflexivity.
  - repeat constructor.
  - exists out. split; [exact E|]. split.
    + rewrite Hc. reflexivity.
    + rewrite Hrows. reflexivity.
Defined.

(** C10.  When the first parsed table with Rank and Player headers comes out
    of the pipeline with no rows, the ranking extractor returns that empty
    frame, whatever tables follow. *)
Theorem ranking_empty_candidate_returned
        (pre : list DataFrame) (f out : DataFrame) (post : list DataFrame) :
  Forall (fun t => ~ has_ranking_headers t) pre ->
  has_ranking_headers f ->
  ranking_sanitize (trim_columns f) = Ok out ->
  rows out = [] ->
  extract_ranking_table (Ok (pre ++ f :: post)) = Ok (Some out)
  /\ empty out = true.
Proof.
  intros Hpre Hf Hs Hrows. split.
  - cbn [extract_ranking_table].
    rewrite (ranking_scan_skip pre (f :: post) Hpre).
    rewrite (ranking_scan_hit f post Hf), Hs. reflexivity.
  - unfold empty. rewrite Hrows. reflexivity.
Qed.

Lemma ranking_empty_candidate_returned_witness :
  extract_ranking_table
    (Ok ([Samples.clubs] ++ Samples.pager :: [Samples.ranking]))
  = Ok (Some (mkFrame ["Rank"; "Player"] []))
  /\ empty (mkFrame ["Rank"; "Player"] []) = true.
Proof.
  apply ranking_empty_candidate_returned.
  - repeat constructor; lacks_headers.
  - has_ranking.
  - reflexivity.
  - reflexivity.
Defined.

(** ** The entries pipeline on one candidate *)

Lemma assign_at_map (i : nat) (f : cell -> cell) (rs : list (list cell)) :
  assign_at i rs (map f (map (fun r => nth i r NaN) rs))
  = map (fun r => set_nth i (f (nth i r NaN)) r) rs.
Proof.
  induction rs as [|r rs IH]; [reflexivity|].
  cbn [map assign_at]. rewrite IH. reflexivity.
Qed.

Lemma filter_map_swap {A B : Type} (p : B -> bool) (h : A -> B)
      (xs : list A) :
  filter p (map h xs) = map h (filter (fun x => p (h x)) xs).
Proof.
  induction xs as [|x xs IH]; [reflexivity|].
  cbn [map filter]. destruct (p (h x)); cbn [map]; rewrite IH; reflexivity.
Qed.

Lemma nth_set_nth (i : nat) (v : cell) (r : list cell) :
  i < List.length r -> nth i (set_nth i v r) NaN = v.
Proof.
  revert r. induction i as [|i IH]; intros [|x r] H; simpl in *; try lia.
  - reflexivity.
  - apply IH. lia.
Qed.

Lemma notna_in_range (i : nat) (r : list cell) :
  notna (nth i r NaN) = true -> i < List.length r.
Proof.
  intros H. destruct (Nat.lt_ge_cases i (List.length r)) as [|Hge];
    [assumption|].
  rewrite (nth_overflow r NaN Hge) in H. discriminate.
Qed.

Lemma names_tail (df : DataFrame) (i : nat) :
  get_loc "Name" (columns df) = Ok i ->
  (df <- dropna df "Name" ;;
   name <- getitem df "Name" ;;
   df <- setitem df "Name" (map (fun c => Str (strip (astype_str c))) name) ;;
   name <- getitem df "Name" ;;
   let mask_valid :=
     map (fun c => negb (isin invalid_names (str_lower c))) name in
   Ok (boolean_index df mask_valid))
  = Ok (mkFrame (columns df)
          (map (with_trimmed_name i)
               (filter (fun r => notna (nth i r NaN)
                                 && name_valid (nth i r NaN))
                       (rows df)))).
Proof.
  intros Hi. unfold dropna, getitem, setitem.
  rewrite Hi. cbn [bind boolean_index columns]. rewrite Hi.
  cbn [bind columns]. rewrite Hi. cbn [bind].
  unfold boolean_index, column_at. cbn [columns rows]. do 2 f_equal.
  rewrite !select_map_via.
  rewrite (assign_at_map i (fun c => Str (strip (astype_str c)))).
  fold (with_trimmed_name i).
  rewrite filter_map_swap, filter_filter.
  f_equal. apply filter_ext. intros r.
  destruct (notna (nth i r NaN)) eqn:Hna; [|reflexivity].
  cbn [andb]. unfold with_trimmed_name.
  rewrite (nth_set_nth i _ r (notna_in_range i r Hna)). reflexivity.
Qed.

Lemma entries_clean_once (df : DataFrame) :
  once "Name" (columns df) ->
  (In "Status" (columns df) -> once "Status" (columns df)) ->
  exists i,
    get_loc "Name" (columns df) = Ok i
    /\ entries_clean df
       = Ok (mkFrame (columns df)
               (map (with_trimmed_name i)
                    (filter (entry_kept (columns df)) (rows df)))).
Proof.
  intros Hn Hs.
  destruct (get_loc_once _ _ Hn) as (i & Hi & _).
  exists i. split; [exact Hi|].
  unfold entries_clean.
  destruct (list_in "Status" (columns df)) eqn:E.
  - destruct (get_loc_once _ _ (Hs (proj1 (list_in_In _ _) E)))
      as (j & Hj & _).
    unfold getitem at 1. rewrite Hj. cbn [bind].
    etransitivity; [apply (names_tail _ i); exact Hi|].
    unfold boolean_index, column_at. cbn [columns rows].
    rewrite map_map, select_map_via, filter_filter.
    do 3 f_equal. apply filter_ext. intros r.
    unfold entry_kept, name_valid. rewrite E.
    rewrite (cell_of_loc _ r _ _ Hi), (cell_of_loc _ r _ _ Hj).
    rewrite andb_assoc. reflexivity.
  - cbn [bind].
    etransitivity; [apply (names_tail _ i); exact Hi|].
    do 3 f_equal. apply filter_ext. intros r.
    unfold entry_kept, name_valid. rewrite E.
    rewrite (cell_of_loc _ r _ _ Hi). reflexivity.
Qed.

Lemma entries_clean_columns (df d : DataFrame) :
  entries_clean df = Ok d ->
  exists i, get_loc "Name" (columns df) = Ok i /\ columns d = columns df.
Proof.
  unfold entries_clean, dropna, getitem, setitem.
  destruct (list_in "Status" (columns df));
    [destruct (get_loc "Status" (columns df)); [|discriminate]|];
    cbn [bind boolean_index columns];
    (destruct (get_loc "Name" (columns df)) as [i|] eqn:Hi; [|discriminate]);
    repeat (cbn [bind boolean_index columns]; rewrite ?Hi);
    intros H; injection H as <-; exists i; split; reflexivity.
Qed.

Lemma getitem_list_names (d : DataFrame) (i : nat) :
  get_loc "Name" (columns d) = Ok i ->
  getitem_list d "Name"
  = Ok (mkFrame ["Name"] (map (fun r => [nth i r NaN]) (rows d))).
Proof. intros H. unfold getitem_list. rewrite H. reflexivity. Qed.

Lemma entries_schema_has (df : DataFrame) :
  let cols := columns (trim_columns df) in
  list_in "Name" cols && existsb (fun c => contains "date" (lower c)) cols
  = true <-> has_entries_headers df.
Proof.
  cbn [trim_columns set_columns columns]. unfold has_entries_headers.
  rewrite andb_true_iff, list_in_In, existsb_exists. reflexivity.
Qed.

Lemma entries_scan_miss (t : DataFrame) (rest : list DataFrame) :
  ~ has_entries_headers t ->
  entries_scan (t :: rest) = entries_scan rest.
Proof.
  intros H. cbn [entries_scan].
  destruct (list_in "Name" (columns (trim_columns t))) eqn:E1;
    [|reflexivity].
  destruct (existsb (fun c => contains "date" (lower c))
                    (columns (trim_columns t))) eqn:E2; [|reflexivity].
  exfalso. apply H, entries_schema_has. rewrite E1, E2. reflexivity.
Qed.

Lemma entries_scan_match (t : DataFrame) (rest : list DataFrame) :
  has_entries_headers t ->
  entries_scan (t :: rest)
  = match entries_clean (trim_columns t) with
    | Raise e => Raise e
    | Ok d =>
        if empty d then entries_scan rest
        else (out <- getitem_list d "Name" ;; Ok (Some out))
    end.
Proof.
  intros H. apply entries_schema_has, andb_true_iff in H.
  destruct H as [E1 E2]. cbn [entries_scan]. rewrite E1, E2. reflexivity.
Qed.

Lemma entries_clean_empty (df d : DataFrame) :
  entries_clean df = Ok d ->
  empty d = match rows d with [] => true | _ => false end.
Proof.
  intros H. destruct (entries_clean_columns df d H) as (i & Hi & Hc).
  unfold empty. rewrite Hc.
  apply get_loc_ok_once, once_list_in, list_in_In in Hi.
  destruct (columns df); [contradiction|].
  destruct (rows d); reflexivity.
Qed.

Lemma entries_scan_skip (pre rest : list DataFrame) :
  Forall passed_over pre ->
  entries_scan (pre ++ rest) = entries_scan rest.
Proof.
  induction 1 as [|t pre Ht _ IH]; [reflexivity|].
  cbn [app]. destruct Ht as [Ht|(Ht & d & Hd & Hrows)].
  - rewrite (entries_scan_miss _ _ Ht). exact IH.
  - rewrite (entries_scan_match _ _ Ht), Hd.
    rewrite (entries_clean_empty _ _ Hd), Hrows. exact IH.
Qed.

(** ** Properties of the entries extractor *)

(** C3.  The entries extractor returns the Name column of the first parsed
    table whose trimmed headers contain "Name" and a label whose lowercase
    form contains "date", and which the pipeline cleans down to at least one
    row.  A table before it that passes the header tests but is cleaned down
    to no row is passed over like one that fails them. *)
Theorem first_entries_candidate_selected
        (pre : list DataFrame) (f d : DataFrame) (post : list DataFrame) :
  Forall passed_over pre ->
  has_entries_headers f ->
  entries_clean (trim_columns f) = Ok d ->
  rows d <> [] ->
  exists out,
    getitem_list d "Name" = Ok out
    /\ extract_online_entries_table (Ok (pre ++ f :: post)) = Ok (Some out)
    /\ columns out = ["Name"]
    /\ List.length (rows out) = List.length (rows d).
Proof.
  intros Hpre Hf Hd Hrows.
  destruct (entries_clean_columns _ _ Hd) as (i & Hi & Hc).
  rewrite <- Hc in Hi.
  eexists. split; [apply (getitem_list_names d i Hi)|].
  split; [|split; [reflexivity | cbn [rows]; apply length_map]].
  cbn [extract_online_entries_table].
  rewrite (entries_scan_skip pre (f :: post) Hpre).
  rewrite (entries_scan_match f post Hf), Hd.
  rewrite (entries_clean_empty _ _ Hd).
  destruct (rows d) eqn:E; [contradiction|].
  rewrite (getitem_list_names d i Hi), E. reflexivity.
Qed.

Lemma first_entries_candidate_selected_witness :
  exists out,
    getitem_list
      (mkFrame ["Name"; "Date of entry"; "Status"]
         [ [Str "Ann Lee"; Str "01/02/2025"; Str "Accepted"];
           [Str "Alex Smith"; Str "04/02/2025"; NaN] ])
      "Name" = Ok out
    /\ extract_online_entries_table
         (Ok ([Samples.clubs; Samples.entries_withdrawn]
                ++ Samples.entries :: [Samples.entries]))
       = Ok (Some out)
    /\ columns out = ["Name"]
    /\ List.length (rows out) = 2.
Proof.
  apply (first_entries_candidate_selected
           [Samples.clubs; Samples.entries_withdrawn] Samples.entries
           (mkFrame ["Name"; "Date of entry"; "Status"]
              [ [Str "Ann Lee"; Str "01/02/2025"; Str "Accepted"];
                [Str "Alex Smith"; Str "04/02/2025"; NaN] ])
           [Samples.entries]).
  - constructor; [|constructor; [|constructor]].
    + left. lacks_headers.
    + right. split; [has_entries "Entry Date"|].
      eexists. split; [vm_compute; reflexivity | reflexivity].
  - has_entries "Date of entry".
  - vm_compute. reflexivity.
  - discriminate.
Defined.

(** C4.  On an entries candidate (Name borne by one column, Status by at
    most one) the extractor keeps exactly the rows that pass, in this order
    of tests: Status, when the column exists, does not contain "withdrawn"
    once lowercased; Name is not null; Name, stringified, trimmed and
    lowercased, is none of "", "name", "nan", "none".  The result has the
    single column Name, holding the trimmed names in the original order; a
    candidate left with no row yields no result. *)
Theorem entries_rows_sanitized (df : DataFrame) :
  has_entries_headers df ->
  once "Name" (map strip (columns df)) ->
  (In "Status" (map strip (columns df)) ->
   once "Status" (map strip (columns df))) ->
  let cols := map strip (columns df) in
  let kept := filter (entry_kept cols) (rows df) in
  extract_online_entries_table (Ok [df])
  = Ok (match kept with
        | [] => None
        | _ =>
            Some (mkFrame ["Name"]
                    (map (fun r =>
                            [Str (strip (astype_str (cell_of cols r "Name")))])
                         kept))
        end).
Proof.
  intros Hf Hn Hs cols kept.
  destruct (entries_clean_once (trim_columns df) Hn Hs) as (i & Hi & Hd).
  cbn [extract_online_entries_table].
  rewrite (entries_scan_match df [] Hf), Hd.
  rewrite (entries_clean_empty _ _ Hd).
  cbn [rows columns trim_columns set_columns] in Hi |- *.
  fold cols in Hi |- *. fold kept.
  assert (Hk : forall r, In r kept -> i < List.length r).
  { intros r Hr. apply filter_In in Hr. destruct Hr as [_ Hr].
    unfold entry_kept in Hr. apply andb_true_iff in Hr.
    destruct Hr as [Hr _]. apply andb_true_iff in Hr. destruct Hr as [_ Hr].
    rewrite (cell_of_loc cols r _ _ Hi) in Hr.
    apply notna_in_range, Hr. }
  destruct kept as [|r0 kept'] eqn:E; [reflexivity|].
  cbn [map]. unfold getitem_list. cbn [columns rows].
  rewrite Hi. cbn [bind map].
  do 4 f_equal.
  - unfold with_trimmed_name.
    rewrite (nth_set_nth i _ r0 (Hk r0 (or_introl eq_refl))).
    rewrite (cell_of_loc cols r0 _ _ Hi). reflexivity.
  - rewrite map_map. apply map_ext_in. intros r Hr.
    unfold with_trimmed_name.
    rewrite (nth_set_nth i _ r (Hk r (or_intror Hr))).
    rewrite (cell_of_loc cols r _ _ Hi). reflexivity.
Qed.

Lemma entries_rows_sanitized_witness :
  extract_online_entries_table (Ok [Samples.entries])
  = Ok (Some (mkFrame ["Name"] [ [Str "Ann Lee"]; [Str "Alex Smith"] ])).
Proof.
  apply (entries_rows_sanitized Samples.entries).
  - has_entries "Date of entry".
  - reflexivity.
  - intros _. reflexivity.
Defined.

(** C8.  The extractors do not return None on every markup without a
    table.  They catch ValueError alone: any other exception of
    [read_html] leaves them as it came, among them the XMLSyntaxError it
    raises on empty markup. *)
Theorem uncaught_parse_error_raises (e : exn) :
  e <> ValueError ->
  extract_ranking_table (Raise e) = Raise e
  /\ extract_online_entries_table (Raise e) = Raise e.
Proof.
  intros He. destruct e; try contradiction; split; reflexivity.
Qed.

Lemma uncaught_parse_error_raises_witness :
  extract_ranking_table (Raise XMLSyntaxError) = Raise XMLSyntaxError
  /\ extract_online_entries_table (Raise XMLSyntaxError)
     = Raise XMLSyntaxError.
Proof. apply uncaught_parse_error_raises. discriminate. Defined.

(** ** Trimming twice *)

Lemma lstrip_starts (s : string) :
  lstrip s = EmptyString
  \/ exists c r, lstrip s = String c r /\ isspace c = false.
Proof.
  induction s as [|c r IH]; [left; reflexivity|].
  cbn [lstrip]. destruct (isspace c) eqn:E; [exact IH|].
  right. exists c, r. split; [reflexivity | exact E].
Qed.

Lemma rstrip_keeps_head (c : ascii) (r : string) :
  isspace c = false -> exists r', rstrip (String c r) = String c r'.
Proof.
  intros H. cbn [rstrip]. rewrite H.
  destruct (rstrip r); eexists; reflexivity.
Qed.

Lemma rstrip_idempotent (s : string) : rstrip (rstrip s) = rstrip s.
Proof.
  induction s as [|c r IH]; [reflexivity|].
  cbn [rstrip]. destruct (rstrip r) as [|c' t] eqn:E.
  - destruct (isspace c) eqn:Hc; [reflexivity|].
    cbn [rstrip]. rewrite Hc. reflexivity.
  - change (rstrip (String c (String c' t)))
      with (match rstrip (String c' t) with
            | EmptyString =>
                if isspace c then EmptyString else String c EmptyString
            | r' => String c r'
            end).
    rewrite IH. reflexivity.
Qed.

Lemma strip_idempotent (s : string) : strip (strip s) = strip s.
Proof.
  unfold strip. destruct (lstrip_starts s) as [->|(c & r & -> & Hc)];
    [reflexivity|].
  destruct (rstrip_keeps_head c r Hc) as (r' & E).
  rewrite E. cbn [lstrip]. rewrite Hc. rewrite <- E.
  apply rstrip_idempotent.
Qed.

(** ** Cells under a label, through the column steps *)

Lemma locs_shift (label : string) (cols : list string) (i : nat) :
  locs label cols (S i) = map S (locs label cols i).
Proof.
  revert i. induction cols as [|c cols IH]; intros i; [reflexivity|].
  cbn [locs]. destruct (String.eqb c label); cbn [map]; rewrite IH;
    reflexivity.
Qed.

Lemma cell_of_cons (c : string) (cols : list string) (x : cell)
      (r : list cell) (label : string) :
  cell_of (c :: cols) (x :: r) label
  = if String.eqb c label then x else cell_of cols r label.
Proof.
  unfold cell_of, first_loc. cbn [locs].
  destruct (String.eqb c label); [reflexivity|].
  rewrite locs_shift. destruct (locs label cols 0); reflexivity.
Qed.

Lemma cell_of_nil_row (cols : list string) (label : string) :
  cell_of cols [] label = NaN.
Proof.
  unfold cell_of. destruct (first_loc label cols) as [[|i]|]; reflexivity.
Qed.

Lemma cell_of_nil_cols (r : list cell) (label : string) :
  cell_of [] r label = NaN.
Proof. reflexivity. Qed.

Lemma select_nil_r {A : Type} (mask : list bool) :
  select mask (@nil A) = [].
Proof. destruct mask as [|[|] mask]; reflexivity. Qed.

(** A column mask that keeps the label does not move the cell under it. *)
Lemma cell_of_select (keep : string -> bool) (label : string)
      (cols : list string) (r : list cell) :
  keep label = true ->
  cell_of (select (map keep cols) cols) (select (map keep cols) r) label
  = cell_of cols r label.
Proof.
  intros Hk. revert r. induction cols as [|c cols IH]; intros r.
  - reflexivity.
  - destruct r as [|x r].
    + rewrite select_nil_r, !cell_of_nil_row. reflexivity.
    + cbn [map select]. rewrite cell_of_cons.
      destruct (keep c) eqn:Ec.
      * rewrite cell_of_cons, IH. reflexivity.
      * rewrite IH. destruct (String.eqb_spec c label) as [->|_];
          [congruence | reflexivity].
Qed.

(** Renaming labels other than [label], to labels other than [label], does
    not move the cell under it. *)
Lemma cell_of_rename (f : string -> string) (label : string)
      (cols : list string) (r : list cell) :
  (forall c, String.eqb (f c) label = String.eqb c label) ->
  cell_of (map f cols) r label = cell_of cols r label.
Proof.
  intros Hf. revert r. induction cols as [|c cols IH]; intros r.
  - reflexivity.
  - destruct r as [|x r].
    + rewrite !cell_of_nil_row. reflexivity.
    + cbn [map]. rewrite !cell_of_cons, Hf, IH. reflexivity.
Qed.

Lemma count_occ_select_rename (keep : string -> bool) (f : string -> string)
      (label : string) (cols : list string) :
  keep label = true ->
  (forall c, String.eqb (f c) label = String.eqb c label) ->
  count_occ string_dec (map f (filter keep cols)) label
  = count_occ string_dec cols label.
Proof.
  intros Hk Hf. induction cols as [|c cols IH]; [reflexivity|].
  cbn [filter]. destruct (keep c) eqn:Ec.
  - cbn [map count_occ].
    destruct (string_dec (f c) label) as [E|E];
      destruct (string_dec c label) as [E'|E']; rewrite IH; try reflexivity.
    + apply String.eqb_eq in E. rewrite Hf in E.
      apply String.eqb_eq in E. contradiction.
    + apply String.eqb_eq in E'. rewrite <- Hf in E'.
      apply String.eqb_eq in E'. contradiction.
  - cbn [count_occ]. destruct (string_dec c label) as [->|_];
      [congruence | exact IH].
Qed.

Lemma rename_keeps (label : string) :
  label <> "Singles points" -> label <> "Doubles points" ->
  label <> "Singles Points" -> label <> "Doubles Points" ->
  forall c,
    String.eqb (rename_label rename_map c) label = String.eqb c label.
Proof.
  intros H1 H2 H3 H4 c.
  destruct (rename_label_cases c) as [[-> ->]|[[-> ->]|[-> _]]];
    [| |reflexivity].
  - transitivity false; [|symmetry]; apply String.eqb_neq; congruence.
  - transitivity false; [|symmetry]; apply String.eqb_neq; congruence.
Qed.

Lemma rename_label_idempotent (c : string) :
  rename_label rename_map (rename_label rename_map c)
  = rename_label rename_map c.
Proof.
  destruct (rename_label_cases c) as [[-> _]|[[-> _]|[E _]]];
    [reflexivity | reflexivity | rewrite !E; reflexivity].
Qed.

Lemma strip_rename_label (c : string) :
  strip (rename_label rename_map (strip c)) = rename_label rename_map (strip c).
Proof.
  destruct (rename_label_cases (strip c)) as [[-> _]|[[-> _]|[-> _]]];
    [reflexivity | reflexivity | apply strip_idempotent].
Qed.

Lemma filter_all {A : Type} (p : A -> bool) (xs : list A) :
  Forall (fun x => p x = true) xs -> filter p xs = xs.
Proof.
  induction 1 as [|x xs Hx _ IH]; [reflexivity|].
  cbn [filter]. rewrite Hx, IH. reflexivity.
Qed.

Lemma map_id_in {A : Type} (f : A -> A) (xs : list A) :
  Forall (fun x => f x = x) xs -> map f xs = xs.
Proof.
  induction 1 as [|x xs Hx _ IH]; [reflexivity|].
  cbn [map]. rewrite Hx, IH. reflexivity.
Qed.

(** A row cut down by a column mask is untouched by the all-true mask over
    the kept labels. *)
Lemma select_kept_again (keep : string -> bool) (cols : list string)
      (mask' : list bool) (r : list cell) :
  mask' = map (fun _ => true) (filter keep cols) ->
  select mask' (select (map keep cols) r) = select (map keep cols) r.
Proof.
  intros ->. revert r. induction cols as [|c cols IH]; intros r.
  - destruct r; reflexivity.
  - destruct r as [|x r]; [rewrite !select_nil_r; reflexivity|].
    cbn [map select filter]. destruct (keep c); cbn [map select];
      rewrite IH; reflexivity.
Qed.

(** ** Running the pipelines on their own results *)

Lemma ranking_sanitize_locs (df out : DataFrame) :
  ranking_sanitize df = Ok out ->
  once "Rank" (columns df) /\ once "Player" (columns df).
Proof.
  unfold ranking_sanitize, getitem.
  destruct (get_loc "Rank" (columns df)) as [i|] eqn:Hi; [|discriminate].
  cbn [bind boolean_index columns].
  destruct (get_loc "Player" (columns df)) as [j|] eqn:Hj; [|discriminate].
  intros _. split; eapply get_loc_ok_once; eassumption.
Qed.

Lemma ranking_scan_some (tables : list DataFrame) (out : DataFrame) :
  ranking_scan tables = Ok (Some out) ->
  exists f, In f tables /\ has_ranking_headers f
            /\ ranking_sanitize (trim_columns f) = Ok out.
Proof.
  induction tables as [|t tables IH]; [discriminate|].
  cbn [ranking_scan]. cbv zeta.
  destruct (negb (list_in "Rank" (columns (trim_columns t)))
            || negb (list_in "Player" (columns (trim_columns t)))) eqn:E.
  - intros H. destruct (IH H) as (f & Hin & Hf).
    exists f. split; [right; exact Hin | exact Hf].
  - destruct (ranking_sanitize (trim_columns t)) as [o|] eqn:Hs;
      [|discriminate].
    cbn [bind]. intros H. injection H as ->.
    exists t. split; [left; reflexivity|].
    split; [apply ranking_test_has, E | exact Hs].
Qed.

Lemma ranking_fixpoint (f out : DataFrame) :
  ranking_sanitize (trim_columns f) = Ok out ->
  once "Rank" (map strip (columns out))
  /\ once "Player" (map strip (columns out))
  /\ ranking_sanitize (trim_columns out) = Ok out.
Proof.
  intros Hs. destruct (ranking_sanitize_locs _ _ Hs) as [Hr Hp].
  cbn [trim_columns set_columns columns] in Hr, Hp.
  rewrite (ranking_sanitize_once f Hr Hp) in Hs. injection Hs as <-.
  set (cols := map strip (columns f)) in *.
  set (nn := fun c : string => negb (unnamed c)).
  set (ren := rename_label rename_map).
  set (keepf := fun r : list cell => negb (ranking_noise cols r)).
  cbn [columns rows].
  assert (Hstrip : map strip (map ren (filter nn cols))
                   = map ren (filter nn cols)).
  { apply map_id_in, Forall_forall. intros x Hx.
    apply in_map_iff in Hx. destruct Hx as (c & <- & Hc).
    apply filter_In, proj1, in_map_iff in Hc. destruct Hc as (c0 & <- & _).
    apply strip_rename_label. }
  assert (Hnn : Forall (fun c => nn c = true) (map ren (filter nn cols))).
  { apply Forall_forall. intros x Hx.
    apply in_map_iff in Hx. destruct Hx as (c & <- & Hc).
    apply filter_In, proj2 in Hc. unfold nn in *.
    apply negb_true_iff. apply rename_label_named.
    apply negb_true_iff. exact Hc. }
  assert (Hr' : once "Rank" (map ren (filter nn cols))).
  { unfold once. rewrite count_occ_select_rename; [exact Hr|reflexivity|].
    apply rename_keeps; discriminate. }
  assert (Hp' : once "Player" (map ren (filter nn cols))).
  { unfold once. rewrite count_occ_select_rename; [exact Hp|reflexivity|].
    apply rename_keeps; discriminate. }
  rewrite Hstrip. split; [exact Hr'|]. split; [exact Hp'|].
  rewrite <- Hstrip in Hr', Hp'.
  rewrite (ranking_sanitize_once
             (mkFrame (map ren (filter nn cols))
                      (map (select (map nn cols)) (filter keepf (rows f))))
             Hr' Hp').
  cbn [columns rows]. rewrite Hstrip. fold nn. fold ren. f_equal. f_equal.
  - rewrite (filter_all nn _ Hnn). apply map_id_in, Forall_forall.
    intros x Hx. apply in_map_iff in Hx. destruct Hx as (c & <- & _).
    apply rename_label_idempotent.
  - rewrite (filter_all
               (fun r => negb (ranking_noise (map ren (filter nn cols)) r))).
    + apply map_id_in, Forall_forall. intros r' Hr0.
      apply in_map_iff in Hr0. destruct Hr0 as (r0 & <- & _).
      apply select_kept_again. rewrite map_map. apply map_ext_in.
      intros c Hc. rewrite Forall_forall in Hnn. apply Hnn.
      apply in_map. exact Hc.
    + apply Forall_forall. intros r' Hr0.
      apply in_map_iff in Hr0. destruct Hr0 as (r0 & <- & Hin).
      apply filter_In, proj2 in Hin. unfold keepf in Hin.
      rewrite <- Hin. f_equal. unfold ranking_noise.
      rewrite <- (select_map nn cols).
      rewrite !(cell_of_rename ren) by (apply rename_keeps; discriminate).
      rewrite !(cell_of_select nn) by reflexivity.
      reflexivity.
Qed.

Lemma entries_clean_once_inv (df d : DataFrame) :
  entries_clean df = Ok d ->
  once "Name" (columns df)
  /\ (In "Status" (columns df) -> once "Status" (columns df)).
Proof.
  intros H. destruct (entries_clean_columns _ _ H) as (i & Hi & _).
  split; [eapply get_loc_ok_once; exact Hi|].
  intros Hin. apply list_in_In in Hin.
  unfold entries_clean, getitem in H. rewrite Hin in H.
  destruct (get_loc "Status" (columns df)) as [j|] eqn:Hj; [|discriminate].
  eapply get_loc_ok_once; exact Hj.
Qed.

Lemma entries_scan_some (tables : list DataFrame) (out : DataFrame) :
  entries_scan tables = Ok (Some out) ->
  exists f d, In f tables /\ has_entries_headers f
              /\ entries_clean (trim_columns f) = Ok d
              /\ rows d <> []
              /\ getitem_list d "Name" = Ok out.
Proof.
  induction tables as [|t tables IH]; [discriminate|].
  intros H.
  assert (Hrest : entries_scan tables = Ok (Some out) ->
                  exists f d, In f (t :: tables) /\ has_entries_headers f
                              /\ entries_clean (trim_columns f) = Ok d
                              /\ rows d <> []
                              /\ getitem_list d "Name" = Ok out).
  { intros H'. destruct (IH H') as (f & d & Hin & Hrest).
    exists f, d. split; [right; exact Hin | exact Hrest]. }
  cbn [entries_scan] in H.
  destruct (list_in "Name" (columns (trim_columns t))) eqn:E1;
    cbn [negb] in H; [|auto].
  destruct (existsb (fun c => contains "date" (lower c))
                    (columns (trim_columns t))) eqn:E2;
    cbn [negb] in H; [|auto].
  destruct (entries_clean (trim_columns t)) as [d|] eqn:Hd; [|discriminate].
  rewrite (entries_clean_empty _ _ Hd) in H.
  destruct (rows d) eqn:Hrows; [auto|].
  destruct (getitem_list d "Name") as [o|] eqn:Ho; [|discriminate].
  cbn [bind] in H. injection H as ->.
  exists t, d. split; [left; reflexivity|].
  split; [apply entries_schema_has; cbv zeta; rewrite E1, E2; reflexivity|].
  split; [exact Hd|]. split; [rewrite Hrows; discriminate | exact Ho].
Qed.

Lemma entries_result_rows (df d out : DataFrame) :
  entries_clean df = Ok d ->
  getitem_list d "Name" = Ok out ->
  columns out = ["Name"] /\ Forall clean_name_row (rows out).
Proof.
  intros Hd Ho. destruct (entries_clean_once_inv _ _ Hd) as [Hn Hs].
  destruct (entries_clean_once df Hn Hs) as (i & Hi & Hd').
  rewrite Hd' in Hd. injection Hd as <-.
  unfold getitem_list in Ho. cbn [columns rows] in Ho. rewrite Hi in Ho.
  cbn [bind] in Ho. injection Ho as <-. cbn [columns rows].
  split; [reflexivity|]. rewrite map_map. apply Forall_forall.
  intros x Hx. apply in_map_iff in Hx. destruct Hx as (r & <- & Hr).
  apply filter_In, proj2 in Hr. unfold entry_kept in Hr.
  apply andb_true_iff in Hr. destruct Hr as [Hr Hv].
  apply andb_true_iff in Hr. destruct Hr as [_ Hna].
  rewrite (cell_of_loc _ r _ _ Hi) in Hna, Hv.
  unfold with_trimmed_name.
  rewrite (nth_set_nth i _ r (notna_in_range i r Hna)).
  exists (astype_str (nth i r NaN)). split; [reflexivity|].
  apply negb_true_iff. exact Hv.
Qed.

Lemma entries_fixpoint (rs : list (list cell)) :
  Forall clean_name_row rs ->
  (d <- entries_clean (trim_columns (mkFrame ["Name"] rs)) ;;
   getitem_list d "Name")
  = Ok (mkFrame ["Name"] rs).
Proof.
  intros Hrs.
  change (trim_columns (mkFrame ["Name"] rs)) with (mkFrame ["Name"] rs).
  destruct (entries_clean_once (mkFrame ["Name"] rs)) as (i & Hi & ->).
  - reflexivity.
  - intros [H|[]]. discriminate.
  - cbn [columns] in Hi.
    change (get_loc "Name" ["Name"]) with (@Ok nat 0) in Hi.
    injection Hi as <-. cbn [bind columns rows].
    unfold getitem_list. cbn [columns rows].
    change (get_loc "Name" ["Name"]) with (@Ok nat 0). cbn [bind].
    f_equal. f_equal. rewrite filter_all.
    + rewrite map_map. apply map_id_in.
      apply Forall_impl with (2 := Hrs).
      intros r (s & -> & _). unfold with_trimmed_name.
      cbn [nth set_nth astype_str]. rewrite strip_idempotent. reflexivity.
    + apply Forall_impl with (2 := Hrs).
      intros r (s & -> & Hv). unfold entry_kept.
      change (list_in "Status" ["Name"]) with false.
      change (cell_of ["Name"] [Str (strip s)] "Name") with (Str (strip s)).
      cbn [notna astype_str andb]. rewrite strip_idempotent, Hv. reflexivity.
Qed.

(** C9.  Sanitization is idempotent.  A frame returned by the ranking
    extractor, handed back to it as the only table, is returned unchanged:
    it still passes the header test and the pipeline drops no row and no
    column of it and renames no label.  A frame returned by the entries
    extractor is left unchanged by the entries steps (Status filter, null
    filter, trimming, placeholder filter, projection to Name). *)
Theorem sanitization_idempotent
        (parsed : result (list DataFrame)) (out : DataFrame) :
  (extract_ranking_table parsed = Ok (Some out) ->
   ranking_sanitize (trim_columns out) = Ok out
   /\ extract_ranking_table (Ok [out]) = Ok (Some out))
  /\ (extract_online_entries_table parsed = Ok (Some out) ->
      (d <- entries_clean (trim_columns out) ;; getitem_list d "Name")
      = Ok out).
Proof.
  split.
  - intros H. destruct parsed as [tables|[]]; try discriminate.
    cbn [extract_ranking_table] in H.
    destruct (ranking_scan_some _ _ H) as (f & _ & _ & Hs).
    destruct (ranking_fixpoint f out Hs) as (Hr & Hp & Hfix).
    split; [exact Hfix|]. cbn [extract_ranking_table].
    rewrite (ranking_scan_hit out [] (once_headers out Hr Hp)), Hfix.
    reflexivity.
  - intros H. destruct parsed as [tables|[]]; try discriminate.
    cbn [extract_online_entries_table] in H.
    destruct (entries_scan_some _ _ H) as (f & d & _ & _ & Hd & _ & Ho).
    destruct (entries_result_rows _ _ _ Hd Ho) as [Hc Hrows].
    destruct out as [ocols orows]. cbn [columns rows] in Hc, Hrows.
    subst ocols. apply entries_fixpoint, Hrows.
Qed.

Lemma sanitization_idempotent_witness :
  (ranking_sanitize
     (trim_columns
        (mkFrame ["Rank"; "Player"; "Singles Points"; "County"]
           [ [Str "1"; Str "Ann Lee"; Str "1200"; Str "Kent"];
             [Str "2"; Str "Bo Chen"; Str "1100"; Str "Avon"];
             [Str "3"; NaN; Str "900"; NaN] ]))
   = Ok (mkFrame ["Rank"; "Player"; "Singles Points"; "County"]
           [ [Str "1"; Str "Ann Lee"; Str "1200"; Str "Kent"];
             [Str "2"; Str "Bo Chen"; Str "1100"; Str "Avon"];
             [Str "3"; NaN; Str "900"; NaN] ])
   /\ extract_ranking_table
        (Ok [mkFrame ["Rank"; "Player"; "Singles Points"; "County"]
               [ [Str "1"; Str "Ann Lee"; Str "1200"; Str "Kent"];
                 [Str "2"; Str "Bo Chen"; Str "1100"; Str "Avon"];
                 [Str "3"; NaN; Str "900"; NaN] ]])
      = Ok (Some (mkFrame ["Rank"; "Player"; "Singles Points"; "County"]
                    [ [Str "1"; Str "Ann Lee"; Str "1200"; Str "Kent"];
                      [Str "2"; Str "Bo Chen"; Str "1100"; Str "Avon"];
                      [Str "3"; NaN; Str "900"; NaN] ])))
  /\ (d <- entries_clean
             (trim_columns
                (mkFrame ["Name"] [ [Str "Ann Lee"]; [Str "Alex Smith"] ])) ;;
      getitem_list d "Name")
     = Ok (mkFrame ["Name"] [ [Str "Ann Lee"]; [Str "Alex Smith"] ]).
Proof.
  split.
  - apply (proj1 (sanitization_idempotent (Ok [Samples.ranking]) _)).
    vm_compute. reflexivity.
  - apply (proj2 (sanitization_idempotent (Ok [Samples.entries]) _)).
    vm_compute. reflexivity.
Defined.

(** The entries extractor itself, run on its own result, finds no
    candidate: the result has lost the date column the header test asks
    for. *)
Example entries_result_not_a_candidate :
  extract_online_entries_table
    (Ok [mkFrame ["Name"] [ [Str "Ann Lee"]; [Str "Alex Smith"] ]])
  = Ok None.
Proof. vm_compute. reflexivity. Qed.

(** ** Properties of the page aggregator *)

(** C7.  The last step before output removes the column labelled "Rank.1"
    from the concatenated and truncated frame when there is one: the other
    columns keep their labels and their order, every row remains, in order,
    with its cells under the other columns unchanged.  A frame without such
    a column is left as it is. *)
Theorem artifact_column_dropped (combined : DataFrame) :
  rectangular (columns combined) (rows combined) ->
  let cols := columns combined in
  let kept := positions (fun c => negb (String.eqb c "Rank.1")) cols in
  exists out,
    drop_rank1 combined = Ok out
    /\ (forall i, i < List.length cols ->
                  (In i kept <-> nth i cols "" <> "Rank.1"))
    /\ (In "Rank.1" cols ->
        columns out = map (fun i => nth i cols "") kept
        /\ rows out = map (project kept) (rows combined)
        /\ ~ In "Rank.1" (columns out))
    /\ (~ In "Rank.1" cols -> out = combined).
Proof.
  intros Hrect cols kept.
  assert (Hkept : forall i, i < List.length cols ->
                            (In i kept <-> nth i cols "" <> "Rank.1")).
  { intros i Hi. unfold kept, positions.
    rewrite filter_In, in_seq, negb_true_iff, String.eqb_neq.
    split; [tauto|]. intros H. split; [lia | exact H]. }
  unfold drop_rank1, drop_columns. fold cols.
  destruct (list_in "Rank.1" cols) eqn:E.
  - eexists. split; [reflexivity|]. split; [exact Hkept|].
    split; [intros _ | intros H; apply list_in_In in E; contradiction].
    unfold loc_columns. cbn [columns rows]. fold cols.
    split; [apply select_labels|]. split.
    + apply map_ext_in. intros r Hr. apply select_project.
      unfold rectangular in Hrect. rewrite Forall_forall in Hrect.
      apply Hrect, Hr.
    + rewrite select_map. intros H. apply filter_In, proj2 in H.
      discriminate.
  - exists combined. split; [reflexivity|]. split; [exact Hkept|].
    split; [|reflexivity].
    intros H. apply list_in_In in H. congruence.
Qed.

Lemma artifact_column_dropped_witness :
  (exists out,
     drop_rank1 Samples.ranking_page2 = Ok out
     /\ columns out = ["Rank"; "Player"]
     /\ rows out = [ [Num "26"; Str "Cy Diaz"]; [Num "27"; Str "Di Eto"];
                     [Num "28"; Str "Ed Fry"] ])
  /\ drop_rank1 Samples.combined_plain = Ok Samples.combined_plain.
Proof.
  split.
  - destruct (artifact_column_dropped Samples.ranking_page2)
      as (out & E & _ & H & _); [repeat constructor|].
    destruct H as (Hc & Hr & _); [vm_compute; intuition|].
    exists out. split; [exact E|]. rewrite Hc, Hr. split; reflexivity.
  - destruct (artifact_column_dropped Samples.combined_plain)
      as (out & E & _ & _ & H); [repeat constructor|].
    rewrite E. f_equal. apply H. vm_compute. intuition discriminate.
Defined.

(** ** The page count *)

Section PageCount.

Local Open Scope Z_scope.

Lemma round_half_even_bounds (num den : Z) :
  0 < den -> 0 <= num ->
  let m := round_half_even num den in
  0 <= m /\ 2 * m * den - den <= 2 * num <= 2 * m * den + den.
Proof.
  intros Hd Hn. unfold round_half_even.
  pose proof (Z.div_mod num den ltac:(lia)) as Hdm.
  pose proof (Z.mod_pos_bound num den Hd) as Hr.
  pose proof (Z.div_pos num den Hn Hd) as Hq.
  destruct (Z.ltb_spec (2 * (num mod den)) den);
    [|destruct (Z.ltb_spec den (2 * (num mod den)));
      [|destruct (Z.even (num / den))]]; cbv zeta; nia.
Qed.

Lemma ceil_div_unique (num den k : Z) :
  0 < den -> (k - 1) * den < num <= k * den -> ceil_div num den = k.
Proof.
  intros Hd H. unfold ceil_div.
  assert (E : - num / den = - k).
  { symmetry. apply (Z.div_unique_pos (- num) den (- k) (k * den - num)); lia. }
  lia.
Qed.

Lemma log2_ratio_spec (n d : Z) :
  0 < n -> 0 < d ->
  let e := log2_ratio n d in
  scaled_den d e <= scaled_num n e
  /\ scaled_num n (e + 1) < scaled_den d (e + 1).
Proof.
  intros Hn Hd.
  pose proof (Z.log2_spec n Hn) as Ln. pose proof (Z.log2_spec d Hd) as Ld.
  pose proof (Z.log2_nonneg n) as Nn. pose proof (Z.log2_nonneg d) as Nd.
  set (la := Z.log2 n) in *. set (lb := Z.log2 d) in *.
  rewrite !Z.pow_succ_r in Ln, Ld by assumption.
  assert (A : scaled_num n (la - lb + 1) < scaled_den d (la - lb + 1)).
  { unfold scaled_num, scaled_den.
    destruct (Z.le_gt_cases 0 (la - lb + 1)) as [H|H].
    - rewrite (Z.max_l 0 (- (la - lb + 1))), (Z.max_r 0 (la - lb + 1)) by lia.
      change (2 ^ 0) with 1.
      assert (E : 2 ^ lb * 2 ^ (la - lb + 1) = 2 * 2 ^ la).
      { rewrite <- Z.pow_add_r by lia.
        replace (lb + (la - lb + 1)) with (Z.succ la) by lia.
        apply Z.pow_succ_r. lia. }
      assert (0 < 2 ^ (la - lb + 1)) by (apply Z.pow_pos_nonneg; lia).
      nia.
    - rewrite (Z.max_r 0 (- (la - lb + 1))), (Z.max_l 0 (la - lb + 1)) by lia.
      change (2 ^ 0) with 1.
      assert (E : 2 * 2 ^ la * 2 ^ (- (la - lb + 1)) = 2 ^ lb).
      { rewrite <- Z.pow_succ_r, <- Z.pow_add_r by lia. f_equal; lia. }
      assert (0 < 2 ^ (- (la - lb + 1))) by (apply Z.pow_pos_nonneg; lia).
      nia. }
  assert (B : scaled_den d (la - lb - 1) <= scaled_num n (la - lb - 1)).
  { unfold scaled_num, scaled_den.
    destruct (Z.le_gt_cases 0 (la - lb - 1)) as [H|H].
    - rewrite (Z.max_l 0 (- (la - lb - 1))), (Z.max_r 0 (la - lb - 1)) by lia.
      change (2 ^ 0) with 1.
      assert (E : 2 * 2 ^ lb * 2 ^ (la - lb - 1) = 2 ^ la).
      { rewrite <- Z.pow_succ_r, <- Z.pow_add_r by lia. f_equal; lia. }
      assert (0 < 2 ^ (la - lb - 1)) by (apply Z.pow_pos_nonneg; lia).
      nia.
    - rewrite (Z.max_r 0 (- (la - lb - 1))), (Z.max_l 0 (la - lb - 1)) by lia.
      change (2 ^ 0) with 1.
      assert (E : 2 ^ la * 2 ^ (- (la - lb - 1)) = 2 * 2 ^ lb).
      { rewrite <- Z.pow_add_r by lia.
        replace (la + - (la - lb - 1)) with (Z.succ lb) by lia.
        apply Z.pow_succ_r. lia. }
      assert (0 < 2 ^ (- (la - lb - 1))) by (apply Z.pow_pos_nonneg; lia).
      nia. }
  unfold log2_ratio. fold la lb. cbv zeta.
  destruct (Z.leb_spec (scaled_den d (la - lb)) (scaled_num n (la - lb)))
    as [H|H].
  - split; assumption.
  - split; [exact B|]. replace (la - lb - 1 + 1) with (la - lb) by lia. exact H.
Qed.

Lemma binary64_of_ratio_small (a b : Z) :
  0 < a < 2 ^ 53 -> 0 < b < 2 ^ 53 ->
  exists s,
    0 <= s
    /\ b < 2 * 2 ^ s
    /\ binary64_of_ratio a b = Some (round_half_even (a * 2 ^ s) b, - s).
Proof.
  intros Ha Hb.
  destruct (log2_ratio_spec a b ltac:(lia) ltac:(lia)) as [Hlo Hhi].
  set (e := log2_ratio a b) in *.
  assert (He : -53 <= e <= 52).
  { split.
    - destruct (Z.le_gt_cases (-53) e) as [|H]; [assumption|]. exfalso.
      unfold scaled_num, scaled_den in Hhi.
      rewrite (Z.max_r 0 (- (e + 1))), (Z.max_l 0 (e + 1)) in Hhi by lia.
      change (2 ^ 0) with 1 in Hhi.
      assert (2 ^ 53 <= 2 ^ (- (e + 1))) by (apply Z.pow_le_mono_r; lia).
      nia.
    - destruct (Z.le_gt_cases e 52) as [|H]; [assumption|]. exfalso.
      unfold scaled_num, scaled_den in Hlo.
      rewrite (Z.max_l 0 (- e)), (Z.max_r 0 e) in Hlo by lia.
      change (2 ^ 0) with 1 in Hlo.
      assert (2 ^ 53 <= 2 ^ e) by (apply Z.pow_le_mono_r; lia).
      nia. }
  exists (52 - e). split; [lia|]. split.
  - assert (E : 2 * 2 ^ (52 - e) = 2 ^ (53 - e)).
    { rewrite <- Z.pow_succ_r by lia. f_equal; lia. }
    rewrite E. unfold scaled_num, scaled_den in Hlo.
    destruct (Z.le_gt_cases 0 e) as [H|H].
    + rewrite (Z.max_l 0 (- e)), (Z.max_r 0 e) in Hlo by lia.
      change (2 ^ 0) with 1 in Hlo.
      assert (E2 : 2 ^ (53 - e) * 2 ^ e = 2 ^ 53).
      { rewrite <- Z.pow_add_r by lia. f_equal; lia. }
      assert (0 < 2 ^ e) by (apply Z.pow_pos_nonneg; lia).
      nia.
    + rewrite (Z.max_r 0 (- e)), (Z.max_l 0 e) in Hlo by lia.
      change (2 ^ 0) with 1 in Hlo.
      assert (E2 : 2 ^ 53 * 2 ^ (- e) = 2 ^ (53 - e)).
      { rewrite <- Z.pow_add_r by lia. f_equal; lia. }
      assert (0 < 2 ^ (- e)) by (apply Z.pow_pos_nonneg; lia).
      nia.
  - unfold binary64_of_ratio. fold e. cbv zeta.
    rewrite (Z.max_l e (-1022)) by lia.
    unfold scaled_num, scaled_den.
    rewrite (Z.max_r 0 (- (e - 52))), (Z.max_l 0 (e - 52)) by lia.
    change (2 ^ 0) with 1. rewrite Z.mul_1_r.
    replace (- (e - 52)) with (52 - e) by lia.
    replace (e - 52) with (- (52 - e)) by lia.
    destruct (Z.ltb_spec 971 (- (52 - e))); [lia|].
    destruct (Z.eqb_spec (- (52 - e)) 971); [lia|].
    reflexivity.
Qed.

Lemma pages_needed_exact (a b : Z) :
  0 < a < 2 ^ 53 -> 0 < b < 2 ^ 53 ->
  pages_needed a b = Ok (ceil_div a b).
Proof.
  intros Ha Hb.
  destruct (binary64_of_ratio_small a b Ha Hb) as (s & Hs & Hbs & E).
  unfold pages_needed.
  destruct (Z.eqb_spec b 0); [lia|]. destruct (Z.eqb_spec a 0); [lia|].
  rewrite (Z.abs_eq a), (Z.abs_eq b), E by lia.
  destruct (Z.ltb_spec a 0); [lia|]. destruct (Z.ltb_spec b 0); [lia|].
  cbn [xorb]. unfold scaled_num, scaled_den.
  replace (- - s) with s by lia.
  rewrite (Z.max_l 0 (- s)), (Z.max_r 0 s) by lia.
  change (2 ^ 0) with 1. rewrite Z.mul_1_r, Z.mul_1_l.
  f_equal.
  assert (HP : 0 < 2 ^ s) by (apply Z.pow_pos_nonneg; lia).
  set (P := 2 ^ s) in *.
  assert (HaP : 0 <= a * P) by nia.
  destruct (round_half_even_bounds (a * P) b ltac:(lia) HaP) as [Hm0 Hm].
  set (m := round_half_even (a * P) b) in *.
  assert (Hk : (ceil_div a b - 1) * b < a <= ceil_div a b * b).
  { unfold ceil_div.
    pose proof (Z.div_mod (- a) b ltac:(lia)).
    pose proof (Z.mod_pos_bound (- a) b ltac:(lia)). nia. }
  set (k := ceil_div a b) in *.
  apply ceil_div_unique; [exact HP|]. split.
  - destruct (Z.lt_ge_cases ((k - 1) * P) m) as [|Hc]; [assumption|]. exfalso.
    assert (m * b <= (k - 1) * P * b) by nia.
    assert (((k - 1) * b + 1) * P <= a * P) by nia.
    nia.
  - destruct (Z.le_gt_cases m (k * P)) as [|Hc]; [assumption|]. exfalso.
    assert ((k * P + 1) * b <= m * b) by nia.
    assert (a * P <= k * b * P) by nia.
    nia.
Qed.

Lemma pages_needed_nonpositive (a b : Z) :
  a <= 0 -> 0 < b ->
  pages_needed a b = Raise OverflowError
  \/ exists n, n <= 0 /\ pages_needed a b = Ok n.
Proof.
  intros Ha Hb. unfold pages_needed.
  destruct (Z.eqb_spec b 0); [lia|].
  destruct (Z.eqb_spec a 0); [right; exists 0; split; [lia | reflexivity]|].
  unfold binary64_of_ratio. cbv zeta.
  set (qe := Z.max (log2_ratio (Z.abs a) (Z.abs b)) (-1022) - 52).
  set (m := round_half_even (scaled_num (Z.abs a) qe)
                            (scaled_den (Z.abs b) qe)).
  destruct ((971 <? qe) || ((qe =? 971) && (m =? 2 ^ 53)));
    [left; reflexivity|].
  right. destruct (Z.ltb_spec a 0); [|lia]. destruct (Z.ltb_spec b 0); [lia|].
  cbn [xorb]. eexists. split; [|reflexivity].
  assert (Hm : 0 <= m).
  { apply round_half_even_bounds; unfold scaled_num, scaled_den.
    - assert (0 < 2 ^ Z.max 0 qe) by (apply Z.pow_pos_nonneg; lia). nia.
    - assert (0 < 2 ^ Z.max 0 (- qe)) by (apply Z.pow_pos_nonneg; lia).
      nia. }
  assert (Hd : 0 < scaled_den 1 (- qe)).
  { unfold scaled_den.
    assert (0 < 2 ^ Z.max 0 (- qe)) by (apply Z.pow_pos_nonneg; lia). lia. }
  assert (Hn : 0 <= scaled_num m (- qe)).
  { unfold scaled_num.
    assert (0 < 2 ^ Z.max 0 (- - qe)) by (apply Z.pow_pos_nonneg; lia).
    nia. }
  pose proof (Z.div_pos _ _ Hn Hd). lia.
Qed.

End PageCount.

Lemma ceil_div_bounds (a b : Z) :
  (0 < b)%Z ->
  ((ceil_div a b - 1) * b < a <= ceil_div a b * b)%Z.
Proof.
  intros Hb. unfold ceil_div.
  pose proof (Z.div_mod (- a) b ltac:(lia)) as Hdm.
  pose proof (Z.mod_pos_bound (- a) b Hb) as Hr.
  nia.
Qed.

Lemma gathered_succ (browser : nat -> page_load) (k : nat) :
  gathered browser (S k) = gathered browser k ++ page_tables browser (S k).
Proof.
  unfold gathered. rewrite seq_S, flat_map_app. cbn [flat_map Nat.add].
  rewrite app_nil_r. reflexivity.
Qed.

Section PageLoop.

Variable browser : nat -> page_load.
Variable max_players : Z.

(** The loop, entered at page [a + 1] with the tables of pages [1..a]
    still short of the target, stops at some page [k]: all pages before
    [k] left the total short, and unless [k] is the last planned page
    the total has reached the target there. *)
Lemma page_loop_spec (n a : nat) (st st' : loop_state) :
  opened st = seq 1 a ->
  all_tables st = gathered browser a ->
  (forall j, j <= a ->
             (Z.of_nat (total_rows (gathered browser j)) < max_players)%Z) ->
  page_loop browser max_players (seq (S a) n) st = Ok st' ->
  exists k,
    a <= k <= a + n
    /\ opened st' = seq 1 k
    /\ all_tables st' = gathered browser k
    /\ (forall j, j < k ->
                  (Z.of_nat (total_rows (gathered browser j))
                   < max_players)%Z)
    /\ (k < a + n ->
        (max_players <= Z.of_nat (total_rows (gathered browser k)))%Z).
Proof.
  revert a st. induction n as [|n IH]; intros a st Ho Ht Hlt Hrun.
  - cbn [seq page_loop] in Hrun. injection Hrun as <-.
    exists a. repeat split; try assumption; try lia.
    intros j Hj. apply Hlt. lia.
  - cbn [seq page_loop] in Hrun.
    pose proof (gathered_succ browser a) as Hg.
    unfold page_tables in Hg.
    assert (Ho' : opened st ++ [S a] = seq 1 (S a)).
    { rewrite Ho, seq_S. reflexivity. }
    assert (Hnext :
              forall st1,
                opened st1 = seq 1 (S a) ->
                all_tables st1 = gathered browser (S a) ->
                (Z.of_nat (total_rows (gathered browser (S a)))
                 < max_players)%Z ->
                page_loop browser max_players (seq (S (S a)) n) st1
                = Ok st' ->
                exists k,
                  a <= k <= a + S n
                  /\ opened st' = seq 1 k
                  /\ all_tables st' = gathered browser k
                  /\ (forall j, j < k ->
                                (Z.of_nat (total_rows (gathered browser j))
                                 < max_players)%Z)
                  /\ (k < a + S n ->
                      (max_players
                       <= Z.of_nat (total_rows (gathered browser k)))%Z)).
    { intros st1 H1 H2 H3 H4.
      destruct (IH (S a) st1 H1 H2) as (k & Hk & Hrest); [|exact H4|].
      - intros j Hj. destruct (Nat.eq_dec j (S a)) as [->|Hne];
          [exact H3 | apply Hlt; lia].
      - exists k. split; [lia|].
        replace (a + S n) with (S a + n) by lia. exact Hrest. }
    destruct (browser (S a)) as [|parsed].
    + apply (Hnext (mkState (all_tables st) (opened st ++ [S a])) Ho');
        [| |exact Hrun].
      * cbn [all_tables]. rewrite Hg, app_nil_r. exact Ht.
      * rewrite Hg, app_nil_r. apply (Hlt a). lia.
    + destruct (extract_ranking_table parsed) as [df_page|e];
        [|discriminate].
      set (st2 := match df_page with
                  | Some df =>
                      if negb (empty df)
                      then mkState (all_tables st ++ [df])
                                   (opened st ++ [S a])
                      else mkState (all_tables st) (opened st ++ [S a])
                  | None => mkState (all_tables st) (opened st ++ [S a])
                  end) in *.
      assert (Ho2 : opened st2 = seq 1 (S a)).
      { subst st2. destruct df_page as [df|]; [destruct (empty df)|];
          exact Ho'. }
      assert (Ht2 : all_tables st2 = gathered browser (S a)).
      { subst st2. rewrite Hg, <- Ht.
        destruct df_page as [df|]; [destruct (empty df)|];
          cbn [negb all_tables]; rewrite ?app_nil_r; reflexivity. }
      cbn [all_tables opened] in Hrun. fold st2 in Hrun.
      destruct (max_players <=? Z.of_nat (total_rows (all_tables st2)))%Z
        eqn:Hcmp.
      * injection Hrun as <-. exists (S a).
        split; [lia|]. split; [exact Ho2|]. split; [exact Ht2|].
        split; [intros j Hj; apply Hlt; lia|].
        intros _. rewrite <- Ht2. lia.
      * apply (Hnext st2 Ho2 Ht2); [|exact Hrun].
        rewrite <- Ht2. lia.
Qed.

Lemma page_loop_total (pages : list nat) (st : loop_state) :
  (forall p, In p pages -> ~ page_raises browser p) ->
  exists st', page_loop browser max_players pages st = Ok st'.
Proof.
  revert st. induction pages as [|p pages IH]; intros st Hok.
  - eexists. reflexivity.
  - cbn [page_loop].
    assert (Hrest : forall p', In p' pages -> ~ page_raises browser p').
    { intros p' Hp'. apply Hok. right. exact Hp'. }
    destruct (browser p) as [|parsed] eqn:Hb; [apply IH, Hrest|].
    destruct (extract_ranking_table parsed) as [df_page|e] eqn:He.
    + match goal with
      | |- context [if ?c then _ else _] => destruct c
      end; [eexists; reflexivity | apply IH, Hrest].
    + exfalso. apply (Hok p (or_introl eq_refl)).
      exists parsed, e. split; assumption.
Qed.

End PageLoop.

(** ** Concatenation and truncation *)

Lemma labels_eqb_refl (a : list string) : labels_eqb a a = true.
Proof.
  unfold labels_eqb. destruct (list_eq_dec string_dec a a); congruence.
Qed.

Lemma reindex_rows_length (target : list string) (f : DataFrame)
      (rs : list (list cell)) :
  reindex_rows target f = Ok rs -> List.length rs = len f.
Proof.
  unfold reindex_rows, len.
  destruct (labels_eqb (columns f) target).
  - intros H. injection H as <-. reflexivity.
  - destruct (is_unique (columns f)); [|discriminate].
    intros H. injection H as <-. apply length_map.
Qed.

Lemma gather_parts (target : list string) (frames : list DataFrame)
      (rs : list (list cell)) :
  gather target frames = Ok rs ->
  exists parts,
    Forall2 (fun t part => reindex_rows target t = Ok part) frames parts
    /\ rs = List.concat parts
    /\ List.length rs = total_rows frames.
Proof.
  revert rs. induction frames as [|f frames IH]; intros rs H.
  - injection H as <-. exists []. repeat split. constructor.
  - cbn [gather] in H.
    destruct (reindex_rows target f) as [part|] eqn:Hf; [|discriminate].
    destruct (gather target frames) as [rest|] eqn:Hg; [|discriminate].
    cbn [bind] in H. injection H as <-.
    destruct (IH rest eq_refl) as (parts & Hparts & -> & Hlen).
    exists (part :: parts). split; [constructor; assumption|].
    split; [reflexivity|].
    rewrite length_app, Hlen, (reindex_rows_length _ _ _ Hf).
    reflexivity.
Qed.

Lemma concat_gather (tables : list DataFrame) (combined : DataFrame) :
  concat tables = Ok combined ->
  tables <> [] /\ gather (columns combined) tables = Ok (rows combined).
Proof.
  unfold concat. destruct tables as [|f rest]; [discriminate|].
  set (target := if forallb _ rest then _ else _).
  destruct (gather target (f :: rest)) as [rs|] eqn:Hg; [|discriminate].
  cbn [bind]. intros H. injection H as <-. cbn [columns rows].
  split; [discriminate | exact Hg].
Qed.

Lemma gather_same_labels (cols : list string) (tables : list DataFrame) :
  Forall (fun t => columns t = cols) tables ->
  gather cols tables = Ok (flat_map rows tables).
Proof.
  induction 1 as [|t tables Ht _ IH]; [reflexivity|].
  cbn [gather flat_map]. unfold reindex_rows.
  rewrite Ht, labels_eqb_refl. cbn [bind]. rewrite IH. reflexivity.
Qed.

Lemma concat_same_labels (cols : list string) (tables : list DataFrame) :
  tables <> [] ->
  Forall (fun t => columns t = cols) tables ->
  concat tables = Ok (mkFrame cols (flat_map rows tables)).
Proof.
  intros Hne Hall. destruct tables as [|f rest]; [contradiction|].
  unfold concat. inversion Hall as [|? ? Hf Hrest]; subst.
  replace (forallb (fun g => labels_eqb (columns g) (columns f)) rest)
    with true.
  - rewrite (gather_same_labels (columns f) (f :: rest) Hall). reflexivity.
  - symmetry. apply forallb_forall. intros g Hg.
    rewrite Forall_forall in Hrest. rewrite (Hrest g Hg).
    apply labels_eqb_refl.
Qed.


Lemma row_alike_refl (r : list cell) : row_alike r r.
Proof.
  unfold row_alike. induction r as [|c r IH]; constructor; [|exact IH].
  destruct c; cbn; trivial.
Qed.

Lemma rows_alike_refl (rs : list (list cell)) : Forall2 row_alike rs rs.
Proof.
  induction rs as [|r rs IH]; constructor; [apply row_alike_refl | exact IH].
Qed.




(** Page planning for page size 25: targets of 60, 40 and 25 take three,
    two and one page. *)
Example pages_needed_samples :
  pages_needed 60 25 = Ok 3%Z
  /\ pages_needed 40 25 = Ok 2%Z
  /\ pages_needed 25 25 = Ok 1%Z.
Proof. repeat split. Qed.

(** The sample site with page size 3: a target of 4 plans two pages, opens
    both and keeps the first four rows; a target of 7 plans three pages and,
    the third showing no table, ends with the six rows found. *)
Example scrape_sample_target_4 :
  scrape_rankings Samples.site 4 3
  = Ok ([1; 2],
        Saved (Samples.page_of ["Ann"; "Bo"; "Cy"; "Di"])).
Proof. vm_compute. reflexivity. Qed.

Example scrape_sample_target_7 :
  scrape_rankings Samples.site 7 3
  = Ok ([1; 2; 3],
        Saved (Samples.page_of ["Ann"; "Bo"; "Cy"; "Di"; "Ed"; "Flo"])).
Proof. vm_compute. reflexivity. Qed.

Example scrape_sample_target_3 :
  scrape_rankings Samples.site 3 3
  = Ok ([1], Saved (Samples.page_of ["Ann"; "Bo"; "Cy"])).
Proof. vm_compute. reflexivity. Qed.

(** * Further properties of the program *)

(** ** The entries extractor and the tournament job *)

Lemma clean_name_row_proper (r : list cell) :
  clean_name_row r -> proper_name_row r.
Proof.
  intros (s & -> & Hv). exists (strip s).
  split; [reflexivity|]. split; [apply strip_idempotent|].
  split; [|exact Hv]. intros E. rewrite E in Hv. discriminate.
Qed.

Lemma entries_some_shape (parsed : result (list DataFrame))
      (out : DataFrame) :
  extract_online_entries_table parsed = Ok (Some out) ->
  columns out = ["Name"] /\ rows out <> []
  /\ Forall clean_name_row (rows out).
Proof.
  intros H. destruct parsed as [tables|[]]; try discriminate.
  cbn [extract_online_entries_table] in H.
  destruct (entries_scan_some _ _ H) as (f & d & _ & _ & Hd & Hne & Ho).
  destruct (entries_result_rows _ _ _ Hd Ho) as [Hc Hrows].
  split; [exact Hc|]. split; [|exact Hrows].
  destruct (entries_clean_columns _ _ Hd) as (i & Hi & Hcd).
  rewrite <- Hcd in Hi. rewrite (getitem_list_names d i Hi) in Ho.
  injection Ho as <-. cbn [rows]. destruct (rows d); [contradiction|].
  discriminate.
Qed.

(** X1.  Whatever the entries extractor returns is a frame with the single
    column Name and at least one row, and every row holds one text cell: a
    trimmed name that is not blank and, lowercased, none of "name", "nan",
    "none". *)
Theorem entries_output_well_formed
        (parsed : result (list DataFrame)) (out : DataFrame) :
  extract_online_entries_table parsed = Ok (Some out) ->
  columns out = ["Name"]
  /\ rows out <> []
  /\ empty out = false
  /\ Forall proper_name_row (rows out).
Proof.
  intros H. destruct (entries_some_shape _ _ H) as (Hc & Hne & Hrows).
  split; [exact Hc|]. split; [exact Hne|]. split.
  - unfold empty. rewrite Hc. destruct (rows out); [contradiction|].
    reflexivity.
  - apply Forall_impl with (2 := Hrows). exact clean_name_row_proper.
Qed.

Lemma entries_output_well_formed_witness :
  columns (mkFrame ["Name"] [ [Str "Ann Lee"]; [Str "Alex Smith"] ])
  = ["Name"]
  /\ rows (mkFrame ["Name"] [ [Str "Ann Lee"]; [Str "Alex Smith"] ]) <> []
  /\ empty (mkFrame ["Name"] [ [Str "Ann Lee"]; [Str "Alex Smith"] ]) = false
  /\ Forall proper_name_row
            (rows (mkFrame ["Name"] [ [Str "Ann Lee"]; [Str "Alex Smith"] ])).
Proof.
  apply (entries_output_well_formed (Ok [Samples.clubs; Samples.entries])).
  vm_compute. reflexivity.
Defined.

Lemma final_clean_eq (df : DataFrame) (i : nat) :
  get_loc "Name" (columns df) = Ok i ->
  final_clean df
  = Ok (mkFrame (columns df)
          (map (with_trimmed_name i)
               (filter (fun r => notna (nth i r NaN)
                                 && final_valid (nth i r NaN))
                       (rows df)))).
Proof.
  intros Hi. unfold final_clean, dropna, getitem, setitem.
  rewrite Hi. cbn [bind boolean_index columns]. rewrite Hi.
  cbn [bind columns]. rewrite Hi. cbn [bind].
  unfold boolean_index, column_at. cbn [columns rows]. do 2 f_equal.
  rewrite !select_map_via.
  rewrite (assign_at_map i (fun c => Str (strip (astype_str c)))).
  fold (with_trimmed_name i).
  rewrite filter_map_swap, filter_filter.
  f_equal. apply filter_ext. intros r.
  destruct (notna (nth i r NaN)) eqn:Hna; [|reflexivity].
  cbn [andb]. unfold with_trimmed_name.
  rewrite (nth_set_nth i _ r (notna_in_range i r Hna)). reflexivity.
Qed.

Lemma final_clean_fixpoint (rs : list (list cell)) :
  Forall clean_name_row rs ->
  final_clean (mkFrame ["Name"] rs) = Ok (mkFrame ["Name"] rs).
Proof.
  intros Hrs. rewrite (final_clean_eq (mkFrame ["Name"] rs) 0 eq_refl).
  cbn [columns rows]. do 2 f_equal. rewrite filter_all.
  - apply map_id_in. apply Forall_impl with (2 := Hrs).
    intros r (s & -> & _). unfold with_trimmed_name.
    cbn [nth set_nth astype_str]. rewrite strip_idempotent. reflexivity.
  - apply Forall_impl with (2 := Hrs).
    intros r (s & -> & Hv). cbn [nth notna andb]. unfold final_valid.
    cbn [astype_str]. rewrite strip_idempotent.
    unfold invalid_names, list_in in Hv. cbn [existsb] in Hv.
    unfold final_invalid_names, list_in. cbn [existsb].
    repeat (apply orb_false_iff in Hv; destruct Hv as [? Hv]).
    repeat match goal with E : _ = false |- _ => rewrite E end.
    reflexivity.
Qed.

(** X2.  The tournament job saves a frame exactly when the page shows a
    source on which the entries extractor returns one, and the frame saved
    is that very frame: the final clean of the job removes nothing from it
    and changes no name. *)
Theorem tournament_saves_extractor_output
        (load : page_load) (out : DataFrame) :
  scrape_tournament_players load = Ok (SavedEntries out)
  <-> exists parsed,
        load = PageSource parsed
        /\ extract_online_entries_table parsed = Ok (Some out).
Proof.
  split.
  - destruct load as [|parsed]; [discriminate|].
    cbn [scrape_tournament_players].
    destruct (extract_online_entries_table parsed) as [[df|]|] eqn:He;
      cbn [bind]; try discriminate.
    destruct (entries_some_shape _ _ He) as (Hc & _ & Hrows).
    destruct (empty df); [discriminate|].
    destruct df as [dcols drows]. cbn [columns rows] in Hc, Hrows.
    subst dcols. rewrite (final_clean_fixpoint drows Hrows). cbn [bind].
    intros H. injection H as <-. exists parsed.
    split; [reflexivity | exact He].
  - intros (parsed & -> & He). cbn [scrape_tournament_players].
    rewrite He. cbn [bind].
    destruct (entries_some_shape _ _ He) as (Hc & Hne & Hrows).
    destruct out as [ocols orows]. cbn [columns rows] in Hc, Hne, Hrows.
    subst ocols. unfold empty. cbn [columns rows].
    destruct orows as [|r orows]; [contradiction|].
    cbn [List.length Nat.eqb orb].
    rewrite (final_clean_fixpoint (r :: orows) Hrows). reflexivity.
Qed.

Lemma tournament_saves_extractor_output_witness :
  scrape_tournament_players
    (PageSource (Ok [Samples.clubs; Samples.entries]))
  = Ok (SavedEntries
          (mkFrame ["Name"] [ [Str "Ann Lee"]; [Str "Alex Smith"] ])).
Proof.
  apply (proj2 (tournament_saves_extractor_output _ _)).
  exists (Ok [Samples.clubs; Samples.entries]).
  split; [reflexivity | vm_compute; reflexivity].
Defined.

(** ** What the ranking extractor returns *)

Lemma ranking_some_shape (parsed : result (list DataFrame))
      (out : DataFrame) :
  extract_ranking_table parsed = Ok (Some out) ->
  exists tables f,
    parsed = Ok tables /\ In f tables
    /\ once "Rank" (map strip (columns f))
    /\ once "Player" (map strip (columns f))
    /\ out
       = mkFrame
           (map (rename_label rename_map)
                (filter (fun c => negb (unnamed c)) (map strip (columns f))))
           (map (select (map (fun c => negb (unnamed c))
                             (map strip (columns f))))
                (filter (fun r => negb (ranking_noise
                                          (map strip (columns f)) r))
                        (rows f))).
Proof.
  intros H. destruct parsed as [tables|[]]; try discriminate.
  cbn [extract_ranking_table] in H.
  destruct (ranking_scan_some _ _ H) as (f & Hin & _ & Hs).
  destruct (ranking_sanitize_locs _ _ Hs) as [Hr Hp].
  cbn [trim_columns set_columns columns] in Hr, Hp.
  rewrite (ranking_sanitize_once f Hr Hp) in Hs. injection Hs as <-.
  exists tables, f. repeat split; assumption.
Qed.

(** X3.  Whatever the ranking extractor returns bears the labels Rank and
    Player on exactly one column each; every label of it is trimmed, none
    starts with "Unnamed" and none is "Singles points" or "Doubles
    points". *)
Theorem ranking_output_labels
        (parsed : result (list DataFrame)) (out : DataFrame) :
  extract_ranking_table parsed = Ok (Some out) ->
  once "Rank" (columns out)
  /\ once "Player" (columns out)
  /\ Forall (fun c => strip c = c
                      /\ unnamed c = false
                      /\ c <> "Singles points"
                      /\ c <> "Doubles points")
            (columns out).
Proof.
  intros H.
  destruct (ranking_some_shape _ _ H) as (tables & f & _ & _ & Hr & Hp & ->).
  cbn [columns]. split; [|split].
  - unfold once. rewrite count_occ_select_rename; [exact Hr|reflexivity|].
    apply rename_keeps; discriminate.
  - unfold once. rewrite count_occ_select_rename; [exact Hp|reflexivity|].
    apply rename_keeps; discriminate.
  - apply Forall_forall. intros x Hx. apply in_map_iff in Hx.
    destruct Hx as (c & <- & Hc). apply filter_In in Hc.
    destruct Hc as [Hc Hnn]. apply negb_true_iff in Hnn.
    apply in_map_iff in Hc. destruct Hc as (c0 & <- & _).
    split; [apply strip_rename_label|].
    split; [apply rename_label_named, Hnn|].
    destruct (rename_label_cases (strip c0))
      as [[-> _]|[[-> _]|(-> & H1 & H2)]];
      split; solve [discriminate | assumption].
Qed.

Lemma ranking_output_labels_witness :
  once "Rank" ["Rank"; "Player"; "Singles Points"; "County"]
  /\ once "Player" ["Rank"; "Player"; "Singles Points"; "County"]
  /\ Forall (fun c => strip c = c
                      /\ unnamed c = false
                      /\ c <> "Singles points"
                      /\ c <> "Doubles points")
            ["Rank"; "Player"; "Singles Points"; "County"].
Proof.
  apply (ranking_output_labels
           (Ok [Samples.clubs; Samples.ranking])
           (mkFrame ["Rank"; "Player"; "Singles Points"; "County"]
              [ [Str "1"; Str "Ann Lee"; Str "1200"; Str "Kent"];
                [Str "2"; Str "Bo Chen"; Str "1100"; Str "Avon"];
                [Str "3"; NaN; Str "900"; NaN] ])).
  vm_compute. reflexivity.
Defined.

Lemma ranking_noise_projected (cols : list string) (r : list cell) :
  ranking_noise
    (map (rename_label rename_map)
         (filter (fun c => negb (unnamed c)) cols))
    (select (map (fun c => negb (unnamed c)) cols) r)
  = ranking_noise cols r.
Proof.
  unfold ranking_noise.
  rewrite <- (select_map (fun c => negb (unnamed c)) cols).
  rewrite !(cell_of_rename (rename_label rename_map))
    by (apply rename_keeps; discriminate).
  rewrite !(cell_of_select (fun c => negb (unnamed c))) by reflexivity.
  reflexivity.
Qed.

Lemma not_noise_text_ok (cols : list string) (r : list cell) :
  ranking_noise cols r = false ->
  rank_text_ok (cell_of cols r "Rank")
  /\ player_text_ok (cell_of cols r "Player").
Proof.
  unfold ranking_noise. intros H.
  apply orb_false_iff in H. destruct H as [H Hhead].
  apply orb_false_iff in H. destruct H as [H Hblank].
  split.
  - destruct (cell_of cols r "Rank") as [|s|t];
      cbn [rank_text_ok astype_str] in *; trivial.
    unfold search_nocase. cbn [existsb].
    change (lower "page") with "page". change (lower "results") with "results".
    apply orb_false_iff in H. destruct H as [-> ->]. reflexivity.
  - destruct (cell_of cols r "Player") as [|s|t];
      cbn [player_text_ok astype_str] in *; trivial.
    split; apply String.eqb_neq; assumption.
Qed.

(** X4.  In a frame the ranking extractor returns, read under the labels of
    the result, no Rank cell is a text containing "page" or "results" in
    any letter case, and no Player cell is a text that is blank or, trimmed,
    "Player".  (A row whose Player cell is missing is not excluded.)  The
    result has no more rows than the table it was made from. *)
Theorem ranking_output_rows_clean
        (parsed : result (list DataFrame)) (out : DataFrame) :
  extract_ranking_table parsed = Ok (Some out) ->
  Forall (fun r => rank_text_ok (cell_of (columns out) r "Rank")
                   /\ player_text_ok (cell_of (columns out) r "Player"))
         (rows out)
  /\ exists tables f,
       parsed = Ok tables /\ In f tables /\ len out <= len f.
Proof.
  intros H.
  destruct (ranking_some_shape _ _ H) as (tables & f & Hp & Hin & _ & _ & ->).
  cbn [columns rows]. split.
  - apply Forall_forall. intros x Hx. apply in_map_iff in Hx.
    destruct Hx as (r & <- & Hr). apply filter_In in Hr.
    apply not_noise_text_ok.
    rewrite ranking_noise_projected. apply negb_true_iff. apply Hr.
  - exists tables, f. split; [exact Hp|]. split; [exact Hin|].
    unfold len. cbn [rows]. rewrite length_map. apply filter_length_le.
Qed.

Lemma ranking_output_rows_clean_witness :
  Forall (fun r => rank_text_ok (cell_of ["Rank"; "Player"] r "Rank")
                   /\ player_text_ok (cell_of ["Rank"; "Player"] r "Player"))
         [ [Str "-"; Str "Di"]; [Str "-"; Str "Ed"]; [Str "-"; Str "Flo"] ].
Proof.
  apply (ranking_output_rows_clean
           (Ok [Samples.page_of ["Di"; "Ed"; "Flo"]])
           (Samples.page_of ["Di"; "Ed"; "Flo"])).
  vm_compute. reflexivity.
Defined.

(** X5.  The ranking extractor returns None only when there is no ranking
    table to return: [read_html] raised ValueError, or none of the parsed
    tables bears both Rank and Player (and then it does return None). *)
Theorem ranking_none_iff (parsed : result (list DataFrame)) :
  extract_ranking_table parsed = Ok None
  <-> parsed = Raise ValueError
      \/ exists tables,
           parsed = Ok tables
           /\ Forall (fun t => ~ has_ranking_headers t) tables.
Proof.
  split.
  - destruct parsed as [tables|e].
    + cbn [extract_ranking_table]. intros H. right. exists tables.
      split; [reflexivity|].
      induction tables as [|t tables IH]; [constructor|].
      cbn [ranking_scan] in H. cbv zeta in H.
      destruct (negb (list_in "Rank" (columns (trim_columns t)))
                || negb (list_in "Player" (columns (trim_columns t))))
        eqn:E.
      * constructor; [|exact (IH H)].
        intros Hh. apply ranking_test_has in Hh. cbv zeta in Hh. congruence.
      * destruct (ranking_sanitize (trim_columns t)); discriminate.
    + destruct e; try discriminate. intros _. left. reflexivity.
  - intros [->|(tables & -> & Hall)]; [reflexivity|].
    cbn [extract_ranking_table].
    rewrite <- (app_nil_r tables). apply (ranking_scan_skip tables [] Hall).
Qed.

Lemma ranking_none_iff_witness :
  extract_ranking_table (Ok [Samples.clubs; Samples.entries]) = Ok None.
Proof.
  apply (proj2 (ranking_none_iff _)). right.
  exists [Samples.clubs; Samples.entries]. split; [reflexivity|].
  repeat constructor; lacks_headers.
Defined.

(** X6.  The entries extractor returns None only when [read_html] raised
    ValueError or every parsed table was passed over (it fails the header
    tests, or passes them and is cleaned down to no row), and then it does
    return None. *)
Theorem entries_none_iff (parsed : result (list DataFrame)) :
  extract_online_entries_table parsed = Ok None
  <-> parsed = Raise ValueError
      \/ exists tables, parsed = Ok tables /\ Forall passed_over tables.
Proof.
  split.
  - destruct parsed as [tables|e].
    + cbn [extract_online_entries_table]. intros H. right. exists tables.
      split; [reflexivity|].
      induction tables as [|t tables IH]; [constructor|].
      cbn [entries_scan] in H. cbv zeta in H.
      destruct (list_in "Name" (columns (trim_columns t))) eqn:E1;
        cbn [negb] in H.
      2:{ constructor; [|exact (IH H)]. left. intros Hh.
          apply entries_schema_has, andb_true_iff in Hh.
          cbv zeta in Hh. destruct Hh. congruence. }
      destruct (existsb (fun c => contains "date" (lower c))
                        (columns (trim_columns t))) eqn:E2;
        cbn [negb] in H.
      2:{ constructor; [|exact (IH H)]. left. intros Hh.
          apply entries_schema_has, andb_true_iff in Hh.
          cbv zeta in Hh. destruct Hh. congruence. }
      assert (Hh : has_entries_headers t).
      { apply entries_schema_has. cbv zeta. rewrite E1, E2. reflexivity. }
      destruct (entries_clean (trim_columns t)) as [d|] eqn:Hd;
        [|discriminate].
      rewrite (entries_clean_empty _ _ Hd) in H.
      destruct (rows d) eqn:Hrows.
      * constructor; [|exact (IH H)]. right. split; [exact Hh|].
        exists d. split; [exact Hd | exact Hrows].
      * destruct (getitem_list d "Name"); discriminate.
    + destruct e; try discriminate. intros _. left. reflexivity.
  - intros [->|(tables & -> & Hall)]; [reflexivity|].
    cbn [extract_online_entries_table].
    rewrite <- (app_nil_r tables). apply (entries_scan_skip tables [] Hall).
Qed.

Lemma entries_none_iff_witness :
  extract_online_entries_table
    (Ok [Samples.clubs; Samples.entries_withdrawn])
  = Ok None.
Proof.
  apply (proj2 (entries_none_iff _)). right.
  exists [Samples.clubs; Samples.entries_withdrawn].
  split; [reflexivity|].
  constructor; [|constructor; [|constructor]].
  - left. lacks_headers.
  - right. split; [has_entries "Entry Date"|].
    eexists. split; [vm_compute; reflexivity | reflexivity].
Defined.

(** ** Tables after the one that decides *)

Lemma ranking_scan_decided (ts more : list DataFrame)
      (r : result (option DataFrame)) :
  ranking_scan ts = r -> r <> Ok None -> ranking_scan (ts ++ more) = r.
Proof.
  induction ts as [|t ts IH]; intros H Hr.
  - cbn in H. congruence.
  - cbn [app ranking_scan] in *. cbv zeta in *.
    destruct (negb (list_in "Rank" (columns (trim_columns t)))
              || negb (list_in "Player" (columns (trim_columns t))));
      [apply IH; assumption | exact H].
Qed.

Lemma entries_scan_decided (ts more : list DataFrame)
      (r : result (option DataFrame)) :
  entries_scan ts = r -> r <> Ok None -> entries_scan (ts ++ more) = r.
Proof.
  induction ts as [|t ts IH]; intros H Hr.
  - cbn in H. congruence.
  - cbn [app entries_scan] in *. cbv zeta in *.
    destruct (negb (list_in "Name" (columns (trim_columns t))));
      [apply IH; assumption|].
    destruct (negb (existsb (fun c => contains "date" (lower c))
                            (columns (trim_columns t))));
      [apply IH; assumption|].
    destruct (entries_clean (trim_columns t)) as [d|e]; [|exact H].
    destruct (empty d); [apply IH; assumption | exact H].
Qed.

(** X7.  Once an extractor has an answer other than None on the tables
    parsed so far, a frame or an exception, tables that follow cannot
    change it. *)
Theorem extractors_decided_by_prefix
        (ts more : list DataFrame) (r : result (option DataFrame)) :
  r <> Ok None ->
  (extract_ranking_table (Ok ts) = r ->
   extract_ranking_table (Ok (ts ++ more)) = r)
  /\ (extract_online_entries_table (Ok ts) = r ->
      extract_online_entries_table (Ok (ts ++ more)) = r).
Proof.
  intros Hr. split; intros H.
  - apply ranking_scan_decided; assumption.
  - apply entries_scan_decided; assumption.
Qed.

Lemma extractors_decided_by_prefix_witness :
  extract_ranking_table
    (Ok ([Samples.clubs; Samples.pager] ++ [Samples.ranking]))
  = Ok (Some (mkFrame ["Rank"; "Player"] []))
  /\ extract_online_entries_table
       (Ok ([Samples.entries] ++ [Samples.entries_withdrawn]))
     = Ok (Some (mkFrame ["Name"] [ [Str "Ann Lee"]; [Str "Alex Smith"] ]))
  /\ extract_ranking_table
       (Ok ([Samples.twice_ranked] ++ [Samples.ranking]))
     = Raise AttributeError.
Proof.
  split; [|split].
  - refine (proj1 (extractors_decided_by_prefix
                     [Samples.clubs; Samples.pager] [Samples.ranking]
                     (Ok (Some (mkFrame ["Rank"; "Player"] []))) _) _);
      [discriminate | vm_compute; reflexivity].
  - refine (proj2 (extractors_decided_by_prefix
                     [Samples.entries] [Samples.entries_withdrawn]
                     (Ok (Some (mkFrame ["Name"]
                                  [ [Str "Ann Lee"]; [Str "Alex Smith"] ])))
                     _) _);
      [discriminate | vm_compute; reflexivity].
  - refine (proj1 (extractors_decided_by_prefix
                     [Samples.twice_ranked] [Samples.ranking]
                     (Raise AttributeError) _) _);
      [discriminate | vm_compute; reflexivity].
Defined.

(** ** One cell per column *)

Lemma select_length {A B : Type} (keep : A -> bool) (xs : list A)
      (ys : list B) :
  List.length ys = List.length xs ->
  List.length (select (map keep xs) ys) = List.length (filter keep xs).
Proof.
  revert ys. induction xs as [|x xs IH]; intros [|y ys] H;
    try discriminate; [reflexivity|].
  cbn [map select filter]. injection H as H.
  destruct (keep x); cbn [List.length]; rewrite (IH ys H); reflexivity.
Qed.

Lemma loc_columns_rectangular (keep : string -> bool) (df : DataFrame) :
  rectangular (columns df) (rows df) ->
  rectangular (columns (loc_columns df (map keep (columns df))))
              (rows (loc_columns df (map keep (columns df)))).
Proof.
  unfold rectangular, loc_columns. cbn [columns rows]. intros H.
  apply Forall_forall. intros x Hx. apply in_map_iff in Hx.
  destruct Hx as (r & <- & Hr). rewrite Forall_forall in H.
  rewrite select_map. apply select_length, H, Hr.
Qed.

Lemma ranking_some_rectangular (tables : list DataFrame) (out : DataFrame) :
  Forall (fun t => rectangular (columns t) (rows t)) tables ->
  extract_ranking_table (Ok tables) = Ok (Some out) ->
  rectangular (columns out) (rows out).
Proof.
  intros Hall H.
  destruct (ranking_some_shape _ _ H) as (ts & f & Hts & Hin & _ & _ & ->).
  injection Hts as <-. rewrite Forall_forall in Hall.
  pose proof (Hall f Hin) as Hf.
  unfold rectangular in *. cbn [columns rows].
  apply Forall_forall. intros x Hx. apply in_map_iff in Hx.
  destruct Hx as (r & <- & Hr). apply filter_In in Hr.
  rewrite Forall_forall in Hf. rewrite length_map.
  apply select_length. rewrite length_map. apply Hf, Hr.
Qed.

(** X8.  The frames the extractors return have one cell per column in every
    row: the ranking result whenever the parsed tables have, the entries
    result always. *)
Theorem extractors_output_rectangular
        (tables : list DataFrame) (out : DataFrame) :
  (Forall (fun t => rectangular (columns t) (rows t)) tables ->
   extract_ranking_table (Ok tables) = Ok (Some out) ->
   rectangular (columns out) (rows out))
  /\ (extract_online_entries_table (Ok tables) = Ok (Some out) ->
      rectangular (columns out) (rows out)).
Proof.
  split; [apply ranking_some_rectangular|].
  intros H. destruct (entries_some_shape _ _ H) as (Hc & _ & Hrows).
  rewrite Hc. unfold rectangular.
  apply Forall_impl with (2 := Hrows). intros r (s & -> & _). reflexivity.
Qed.

Lemma extractors_output_rectangular_witness :
  rectangular ["Rank"; "Player"; "Singles Points"; "County"]
    [ [Str "1"; Str "Ann Lee"; Str "1200"; Str "Kent"];
      [Str "2"; Str "Bo Chen"; Str "1100"; Str "Avon"];
      [Str "3"; NaN; Str "900"; NaN] ]
  /\ rectangular ["Name"] [ [Str "Ann Lee"]; [Str "Alex Smith"] ].
Proof.
  split.
  - apply (proj1 (extractors_output_rectangular
                    [Samples.clubs; Samples.ranking]
                    (mkFrame ["Rank"; "Player"; "Singles Points"; "County"]
                       [ [Str "1"; Str "Ann Lee"; Str "1200"; Str "Kent"];
                         [Str "2"; Str "Bo Chen"; Str "1100"; Str "Avon"];
                         [Str "3"; NaN; Str "900"; NaN] ]))).
    + repeat constructor.
    + vm_compute. reflexivity.
  - apply (proj2 (extractors_output_rectangular
                    [Samples.clubs; Samples.entries]
                    (mkFrame ["Name"]
                       [ [Str "Ann Lee"]; [Str "Alex Smith"] ]))).
    vm_compute. reflexivity.
Defined.

(** ** The rankings job, end to end *)

Lemma scrape_rankings_inv (browser : nat -> page_load)
      (max_players results_per_page : Z) (pages : list nat) (j : job) :
  scrape_rankings browser max_players results_per_page = Ok (pages, j) ->
  exists n st,
    pages_needed max_players results_per_page = Ok n
    /\ page_loop browser max_players (page_range n) (mkState [] []) = Ok st
    /\ finish max_players (all_tables st) = Ok j
    /\ pages = opened st.
Proof.
  unfold scrape_rankings.
  destruct (pages_needed max_players results_per_page) as [n|] eqn:Hn;
    [|discriminate].
  cbn [bind].
  destruct (page_loop browser max_players _ _) as [st|] eqn:Hl;
    [|discriminate].
  cbn [bind].
  destruct (finish max_players (all_tables st)) as [j'|] eqn:Hf;
    [|discriminate].
  cbn [bind]. intros H. injection H as <- <-.
  exists n, st. repeat split; assumption.
Qed.

Lemma finish_saved (max_players : Z) (tables : list DataFrame)
      (out : DataFrame) :
  finish max_players tables = Ok (Saved out) ->
  tables <> []
  /\ exists combined,
       concat tables = Ok combined
       /\ drop_rank1 (iloc_upto combined max_players) = Ok out.
Proof.
  unfold finish. destruct tables as [|t tables]; [discriminate|].
  destruct (concat (t :: tables)) as [combined|] eqn:Hc; [|discriminate].
  cbn [bind].
  destruct (drop_rank1 (iloc_upto combined max_players)) as [o|] eqn:Hd;
    [|discriminate].
  cbn [bind]. intros H. injection H as <-.
  split; [discriminate|]. exists combined. split; [reflexivity | exact Hd].
Qed.

Lemma finish_no_data (max_players : Z) (tables : list DataFrame) :
  finish max_players tables = Ok NoData -> tables = [].
Proof.
  unfold finish. destruct tables as [|t tables]; [reflexivity|].
  destruct (concat (t :: tables)); [|discriminate]. cbn [bind].
  destruct (drop_rank1 _); discriminate.
Qed.

(** Every accumulated table was there before the loop or is a non-empty
    frame the ranking extractor returned for one of the pages. *)
Lemma page_loop_origin (browser : nat -> page_load) (max_players : Z)
      (pages : list nat) (st st' : loop_state) :
  page_loop browser max_players pages st = Ok st' ->
  forall t, In t (all_tables st') ->
    In t (all_tables st)
    \/ exists p parsed,
         In p pages /\ browser p = PageSource parsed
         /\ extract_ranking_table parsed = Ok (Some t)
         /\ empty t = false.
Proof.
  revert st. induction pages as [|p pages IH]; intros st Hrun t Ht.
  - cbn in Hrun. injection Hrun as <-. left. exact Ht.
  - cbn [page_loop] in Hrun.
    assert (Hlater :
              forall st1,
                page_loop browser max_players pages st1 = Ok st' ->
                (forall t, In t (all_tables st1) ->
                   In t (all_tables st)
                   \/ exists p0 parsed,
                        In p0 (p :: pages) /\ browser p0 = PageSource parsed
                        /\ extract_ranking_table parsed = Ok (Some t)
                        /\ empty t = false) ->
                In t (all_tables st)
                \/ exists p0 parsed,
                     In p0 (p :: pages) /\ browser p0 = PageSource parsed
                     /\ extract_ranking_table parsed = Ok (Some t)
                     /\ empty t = false).
    { intros st1 H1 Hst1. destruct (IH st1 H1 t Ht) as [Hin|Hex].
      - apply Hst1, Hin.
      - right. destruct Hex as (p0 & parsed & Hp0 & Hrest).
        exists p0, parsed. split; [right; exact Hp0 | exact Hrest]. }
    destruct (browser p) as [|parsed] eqn:Hb.
    + apply (Hlater _ Hrun). intros t0 Ht0. left. exact Ht0.
    + destruct (extract_ranking_table parsed) as [df_page|e] eqn:He;
        [|discriminate].
      set (st2 := match df_page with
                  | Some df =>
                      if negb (empty df)
                      then mkState (all_tables st ++ [df])
                                   (opened st ++ [p])
                      else mkState (all_tables st) (opened st ++ [p])
                  | None => mkState (all_tables st) (opened st ++ [p])
                  end) in *.
      assert (Hst2 : forall t0, In t0 (all_tables st2) ->
                In t0 (all_tables st)
                \/ exists p0 parsed0,
                     In p0 (p :: pages) /\ browser p0 = PageSource parsed0
                     /\ extract_ranking_table parsed0 = Ok (Some t0)
                     /\ empty t0 = false).
      { subst st2. intros t0 Ht0.
        destruct df_page as [df|]; [|left; exact Ht0].
        destruct (empty df) eqn:Ee; cbn [negb all_tables] in Ht0;
          [left; exact Ht0|].
        apply in_app_or in Ht0. destruct Ht0 as [Ht0|[<-|[]]];
          [left; exact Ht0|].
        right. exists p, parsed.
        split; [left; reflexivity|]. repeat split; assumption. }
      cbn [all_tables opened] in Hrun. fold st2 in Hrun.
      destruct (max_players <=? Z.of_nat (total_rows (all_tables st2)))%Z.
      * injection Hrun as <-. apply Hst2, Ht.
      * apply (Hlater st2 Hrun Hst2).
Qed.

Lemma labels_eqb_eq (a b : list string) : labels_eqb a b = true -> a = b.
Proof.
  unfold labels_eqb. destruct (list_eq_dec string_dec a b);
    [trivial | discriminate].
Qed.

Lemma gather_rectangular (target : list string) (frames : list DataFrame)
      (rs : list (list cell)) :
  Forall (fun t => rectangular (columns t) (rows t)) frames ->
  gather target frames = Ok rs ->
  rectangular target rs.
Proof.
  intros Hall. revert rs. induction Hall as [|f frames Hf _ IH]; intros rs H.
  - injection H as <-. constructor.
  - cbn [gather] in H.
    destruct (reindex_rows target f) as [part|] eqn:Hp; [|discriminate].
    destruct (gather target frames) as [rest|]; [|discriminate].
    cbn [bind] in H. injection H as <-.
    unfold rectangular. apply Forall_app. split; [|apply IH; reflexivity].
    unfold reindex_rows in Hp.
    destruct (labels_eqb (columns f) target) eqn:E.
    + injection Hp as <-. apply labels_eqb_eq in E. subst target. exact Hf.
    + destruct (is_unique (columns f)); [|discriminate].
      injection Hp as <-. apply Forall_forall. intros x Hx.
      apply in_map_iff in Hx. destruct Hx as (r & <- & _).
      apply length_map.
Qed.

Lemma Forall_firstn {A : Type} (P : A -> Prop) (k : nat) (xs : list A) :
  Forall P xs -> Forall P (firstn k xs).
Proof.
  intros H. revert k. induction H as [|x xs Hx _ IH]; intros [|k];
    cbn [firstn]; constructor; auto.
Qed.

Lemma drop_rank1_cases (df out : DataFrame) :
  drop_rank1 df = Ok out ->
  (list_in "Rank.1" (columns df) = false /\ out = df)
  \/ (list_in "Rank.1" (columns df) = true
      /\ out = loc_columns df
                 (map (fun c => negb (String.eqb c "Rank.1")) (columns df))).
Proof.
  unfold drop_rank1, drop_columns.
  destruct (list_in "Rank.1" (columns df)) eqn:E; intros H;
    injection H as <-; [right | left]; split; reflexivity.
Qed.

Lemma drop_rank1_len (df out : DataFrame) :
  drop_rank1 df = Ok out -> len out = len df.
Proof.
  intros H. destruct (drop_rank1_cases _ _ H) as [[_ ->]|[_ ->]];
    [reflexivity|].
  unfold len, loc_columns. cbn [rows]. apply length_map.
Qed.

Lemma drop_rank1_gone (df out : DataFrame) :
  drop_rank1 df = Ok out -> ~ In "Rank.1" (columns out).
Proof.
  intros H. destruct (drop_rank1_cases _ _ H) as [[E ->]|[_ ->]].
  - intros Hin. apply list_in_In in Hin. congruence.
  - unfold loc_columns. cbn [columns]. rewrite select_map.
    intros Hin. apply filter_In, proj2 in Hin. discriminate.
Qed.

Lemma drop_rank1_rectangular (df out : DataFrame) :
  rectangular (columns df) (rows df) ->
  drop_rank1 df = Ok out ->
  rectangular (columns out) (rows out).
Proof.
  intros Hr H. destruct (drop_rank1_cases _ _ H) as [[_ ->]|[_ ->]];
    [exact Hr | apply loc_columns_rectangular, Hr].
Qed.

Lemma concat_rectangular (tables : list DataFrame) (combined : DataFrame) :
  Forall (fun t => rectangular (columns t) (rows t)) tables ->
  concat tables = Ok combined ->
  rectangular (columns combined) (rows combined).
Proof.
  intros Hall Hc. destruct (concat_gather _ _ Hc) as [_ Hg].
  apply (gather_rectangular _ _ _ Hall Hg).
Qed.

(** X9.  When every table [read_html] hands over on any page has one cell
    per column in every row, so has the frame the rankings job saves. *)
Theorem saved_rankings_rectangular
        (browser : nat -> page_load) (max_players results_per_page : Z)
        (pages : list nat) (out : DataFrame) :
  (forall p tables,
     browser p = PageSource (Ok tables) ->
     Forall (fun t => rectangular (columns t) (rows t)) tables) ->
  scrape_rankings browser max_players results_per_page
  = Ok (pages, Saved out) ->
  rectangular (columns out) (rows out).
Proof.
  intros Hsite H.
  destruct (scrape_rankings_inv _ _ _ _ _ H) as (n & st & _ & Hl & Hf & _).
  destruct (finish_saved _ _ _ Hf) as (_ & combined & Hc & Hd).
  apply (drop_rank1_rectangular _ _) with (2 := Hd).
  unfold iloc_upto. cbn [columns rows]. apply Forall_firstn.
  apply (concat_rectangular _ _) with (2 := Hc).
  apply Forall_forall. intros t Ht.
  destruct (page_loop_origin _ _ _ _ _ Hl t Ht)
    as [[]|(p & parsed & _ & Hb & He & _)].
  destruct (ranking_some_shape _ _ He) as (tables & _ & -> & _).
  apply (ranking_some_rectangular tables t (Hsite p tables Hb) He).
Qed.

Lemma saved_rankings_rectangular_witness :
  rectangular ["Rank"; "Player"]
    (rows (Samples.page_of ["Ann"; "Bo"; "Cy"; "Di"])).
Proof.
  apply (saved_rankings_rectangular Samples.site 4 3 [1; 2]
           (Samples.page_of ["Ann"; "Bo"; "Cy"; "Di"])).
  - intros p tables Hb.
    destruct p as [|[|[|[|[|p]]]]]; cbn [Samples.site] in Hb;
      try discriminate; injection Hb as <-; repeat constructor.
  - vm_compute. reflexivity.
Defined.

Lemma total_rows_positive (tables : list DataFrame) :
  tables <> [] ->
  Forall (fun t => empty t = false) tables ->
  1 <= total_rows tables.
Proof.
  intros Hne Hall. destruct Hall as [|t tables Ht _]; [contradiction|].
  unfold total_rows, len, empty in *. simpl.
  destruct (rows t); [discriminate | simpl; lia].
Qed.

(** X10.  With a positive target, a frame the rankings job saves has at
    least one row and at most [max_players] rows, bears no label "Rank.1",
    and at least one page was opened for it. *)
Theorem saved_rankings_bounds
        (browser : nat -> page_load) (max_players results_per_page : Z)
        (pages : list nat) (out : DataFrame) :
  (0 < max_players)%Z ->
  scrape_rankings browser max_players results_per_page
  = Ok (pages, Saved out) ->
  1 <= len out
  /\ (Z.of_nat (len out) <= max_players)%Z
  /\ ~ In "Rank.1" (columns out)
  /\ pages <> [].
Proof.
  intros Hm H.
  destruct (scrape_rankings_inv _ _ _ _ _ H)
    as (n & st & _ & Hl & Hf & ->).
  destruct (finish_saved _ _ _ Hf) as (Hne & combined & Hc & Hd).
  destruct (concat_gather _ _ Hc) as [_ Hg].
  destruct (gather_parts _ _ _ Hg) as (_ & _ & _ & Hlen).
  assert (Hpos : 1 <= total_rows (all_tables st)).
  { apply total_rows_positive; [exact Hne|].
    apply Forall_forall. intros t Ht.
    destruct (page_loop_origin _ _ _ _ _ Hl t Ht) as [[]|(p & q & Hrest)].
    apply Hrest. }
  rewrite (drop_rank1_len _ _ Hd). unfold len, iloc_upto. cbn [rows].
  destruct (Z.leb_spec 0 max_players); [|lia].
  rewrite length_firstn, Hlen.
  split; [lia|]. split; [lia|]. split; [apply (drop_rank1_gone _ _ Hd)|].
  destruct (page_loop_spec
              browser max_players
              (Z.to_nat n)
              0 (mkState [] []) st eq_refl eq_refl)
    as (k & _ & Hop & Htab & _); [|exact Hl|].
  - intros j Hj. replace j with 0 by lia. cbn. exact Hm.
  - rewrite Hop. destruct k as [|k]; [|discriminate].
    rewrite Htab in Hne. contradiction.
Qed.

Lemma saved_rankings_bounds_witness :
  1 <= len (Samples.page_of ["Ann"; "Bo"; "Cy"; "Di"])
  /\ (Z.of_nat (len (Samples.page_of ["Ann"; "Bo"; "Cy"; "Di"])) <= 4)%Z
  /\ ~ In "Rank.1" (columns (Samples.page_of ["Ann"; "Bo"; "Cy"; "Di"]))
  /\ [1; 2] <> [].
Proof.
  apply (saved_rankings_bounds Samples.site 4 3); [lia|].
  vm_compute. reflexivity.
Defined.

Lemma gathered_nil (browser : nat -> page_load) (k : nat) :
  gathered browser k = []
  <-> forall p, 1 <= p <= k -> page_tables browser p = [].
Proof.
  unfold gathered. split.
  - intros H p Hp.
    assert (Hin : In p (seq 1 k)) by (apply in_seq; lia).
    destruct (page_tables browser p) as [|t ts] eqn:E; [reflexivity|].
    assert (Ht : In t (flat_map (page_tables browser) (seq 1 k))).
    { apply in_flat_map. exists p. split; [exact Hin|].
      rewrite E. left. reflexivity. }
    rewrite H in Ht. destruct Ht.
  - intros H. induction k as [|k IH]; [reflexivity|].
    rewrite seq_S, flat_map_app, IH by (intros p Hp; apply H; lia).
    cbn [flat_map app Nat.add]. rewrite (H (S k)) by lia. reflexivity.
Qed.

(** X11.  With a positive target, the rankings job ends without data only
    after opening every page it planned, none of which yielded a ranking
    row; and when no planned page yields one (and the extractor raises on
    none), that is how it ends. *)
Theorem rankings_no_data
        (browser : nat -> page_load) (max_players results_per_page n : Z) :
  (0 < max_players)%Z ->
  pages_needed max_players results_per_page = Ok n ->
  (forall pages,
     scrape_rankings browser max_players results_per_page
     = Ok (pages, NoData) ->
     pages = seq 1 (Z.to_nat n)
     /\ forall p, 1 <= p <= Z.to_nat n -> page_tables browser p = [])
  /\ ((forall p, 1 <= p <= Z.to_nat n ->
         page_tables browser p = [] /\ ~ page_raises browser p) ->
      scrape_rankings browser max_players results_per_page
      = Ok (seq 1 (Z.to_nat n), NoData)).
Proof.
  intros Hm Hn.
  assert (Hspec :
            forall st,
              page_loop browser max_players (seq 1 (Z.to_nat n))
                        (mkState [] [])
              = Ok st ->
              exists k,
                k <= Z.to_nat n /\ opened st = seq 1 k
                /\ all_tables st = gathered browser k
                /\ (k < Z.to_nat n ->
                    (max_players
                     <= Z.of_nat (total_rows (gathered browser k)))%Z)).
  { intros st Hl.
    destruct (page_loop_spec browser max_players (Z.to_nat n) 0
                             (mkState [] []) st eq_refl eq_refl)
      as (k & Hk & Ho & Ht & _ & Hstop); [|exact Hl|].
    - intros j Hj. replace j with 0 by lia. cbn. exact Hm.
    - exists k. repeat split; [lia | exact Ho | exact Ht | exact Hstop]. }
  split.
  - intros pages H.
    destruct (scrape_rankings_inv _ _ _ _ _ H)
      as (n' & st & Hn' & Hl & Hf & ->).
    rewrite Hn in Hn'. injection Hn' as <-.
    apply finish_no_data in Hf. unfold page_range in Hl.
    destruct (Hspec st Hl) as (k & Hk & Ho & Ht & Hstop).
    rewrite Hf in Ht. symmetry in Ht.
    assert (k = Z.to_nat n).
    { destruct (Nat.eq_dec k (Z.to_nat n)) as [|Hne]; [assumption|].
      assert (Hlt : k < Z.to_nat n) by lia. apply Hstop in Hlt.
      rewrite Ht in Hlt. cbn in Hlt. lia. }
    subst k. split; [exact Ho|]. apply gathered_nil, Ht.
  - intros Hnone.
    destruct (page_loop_total browser max_players (seq 1 (Z.to_nat n))
                              (mkState [] []))
      as (st & Hl).
    { intros p Hin. apply in_seq in Hin. apply Hnone. lia. }
    destruct (Hspec st Hl) as (k & Hk & Ho & Ht & Hstop).
    assert (Hg : gathered browser k = []).
    { apply gathered_nil. intros p Hpk. apply Hnone. lia. }
    assert (k = Z.to_nat n).
    { destruct (Nat.eq_dec k (Z.to_nat n)) as [|Hne]; [assumption|].
      assert (Hlt : k < Z.to_nat n) by lia. apply Hstop in Hlt.
      rewrite Hg in Hlt. cbn in Hlt. lia. }
    subst k. unfold scrape_rankings. rewrite Hn. cbn [bind].
    unfold page_range. rewrite Hl. cbn [bind].
    rewrite Ht, Hg, Ho. reflexivity.
Qed.

Lemma rankings_no_data_witness :
  scrape_rankings (fun _ => NoTable) 60 25 = Ok ([1; 2; 3], NoData).
Proof.
  apply (proj2 (rankings_no_data (fun _ => NoTable) 60 25 3
                                 ltac:(lia) eq_refl)).
  intros p _. split; [reflexivity|].
  intros (parsed & e & Hb & _). discriminate.
Defined.

(** X12.  Edge inputs of the rankings job.  A page size of zero raises
    ZeroDivisionError before any page is opened.  A target that is not
    positive, with a positive page size, never opens a page: the job
    raises OverflowError when the quotient is beyond the floats, and ends
    without data otherwise, as it always does when the target is above
    -2^53 and the page size below 2^53. *)
Theorem rankings_edge_inputs
        (browser : nat -> page_load) (max_players results_per_page : Z) :
  (results_per_page = 0%Z ->
   scrape_rankings browser max_players results_per_page
   = Raise ZeroDivisionError)
  /\ ((max_players <= 0)%Z -> (0 < results_per_page)%Z ->
      scrape_rankings browser max_players results_per_page
      = Raise OverflowError
      \/ scrape_rankings browser max_players results_per_page
         = Ok ([], NoData))
  /\ ((- 2 ^ 53 < max_players <= 0)%Z ->
      (0 < results_per_page < 2 ^ 53)%Z ->
      scrape_rankings browser max_players results_per_page
      = Ok ([], NoData)).
Proof.
  assert (Hnone : forall n, (n <= 0)%Z ->
            pages_needed max_players results_per_page = Ok n ->
            scrape_rankings browser max_players results_per_page
            = Ok ([], NoData)).
  { intros n Hn E. unfold scrape_rankings. rewrite E. cbn [bind].
    unfold page_range. replace (Z.to_nat n) with 0 by lia. reflexivity. }
  split; [|split].
  - intros ->. reflexivity.
  - intros Hm Hp.
    destruct (pages_needed_nonpositive _ _ Hm Hp) as [E|(n & Hn & E)].
    + left. unfold scrape_rankings. rewrite E. reflexivity.
    + right. exact (Hnone n Hn E).
  - intros Hm Hp.
    destruct (pages_needed_nonpositive max_players results_per_page)
      as [E|(n & Hn & E)]; [lia | lia | | exact (Hnone n Hn E)].
    exfalso. unfold pages_needed in E.
    destruct (Z.eqb_spec results_per_page 0); [lia|].
    destruct (Z.eqb_spec max_players 0); [discriminate|].
    destruct (binary64_of_ratio_small
                (Z.abs max_players) (Z.abs results_per_page))
      as (s & _ & _ & Es); [lia | lia |].
    rewrite Es in E.
    destruct (xorb (max_players <? 0)%Z (results_per_page <? 0)%Z);
      discriminate.
Qed.

Lemma rankings_edge_inputs_witness :
  scrape_rankings Samples.site 10 0 = Raise ZeroDivisionError
  /\ scrape_rankings Samples.site (-3) 25 = Ok ([], NoData)
  /\ scrape_rankings Samples.site (- 10 ^ 400) 25 = Raise OverflowError.
Proof.
  split; [|split].
  - apply (proj1 (rankings_edge_inputs Samples.site 10 0)). reflexivity.
  - apply (proj2 (proj2 (rankings_edge_inputs Samples.site (-3) 25)));
      [split; [reflexivity | discriminate] | split; reflexivity].
  - destruct (proj1 (proj2 (rankings_edge_inputs
                              Samples.site (- 10 ^ 400) 25)))
      as [E|E]; [discriminate | reflexivity | exact E |].
    vm_compute in E. discriminate.
Defined.

Lemma gathered_last (browser : nat -> page_load) (k : nat)
      (ts : list DataFrame) (t : DataFrame) :
  gathered browser k = ts ++ [t] ->
  exists j, j < k /\ ts = gathered browser j.
Proof.
  induction k as [|k IH]; intros H.
  - destruct ts; discriminate.
  - rewrite gathered_succ in H. unfold page_tables in H.
    assert (Hsame : gathered browser k ++ [] = ts ++ [t] ->
                    exists j, j < S k /\ ts = gathered browser j).
    { rewrite app_nil_r. intros H'. destruct (IH H') as (j & Hj & E).
      exists j. split; [lia | exact E]. }
    assert (Hnew : forall df, gathered browser k ++ [df] = ts ++ [t] ->
                              exists j, j < S k /\ ts = gathered browser j).
    { intros df H'. apply app_inj_tail in H'. destruct H' as [E _].
      exists k. split; [lia | symmetry; exact E]. }
    destruct (browser (S k)) as [|parsed]; [exact (Hsame H)|].
    destruct (extract_ranking_table parsed) as [[df|]|];
      [|exact (Hsame H)|exact (Hsame H)].
    destruct (empty df); [exact (Hsame H) | exact (Hnew df H)].
Qed.

Lemma flat_map_rows_length (tables : list DataFrame) :
  List.length (flat_map rows tables) = total_rows tables.
Proof.
  induction tables as [|t tables IH]; [reflexivity|].
  cbn [flat_map]. rewrite length_app, IH. reflexivity.
Qed.

(** X13.  With a positive target, the tables accumulated before the last
    one were still short of the target, so truncation can only cut into the
    last table: when the tables share their labels, the truncated frame
    holds, row for row, every row of every table but the last, followed by
    the leading rows of the last that fit; text and missing cells are
    unchanged, a number stays a number. *)
Theorem truncation_cuts_last_table_only
        (browser : nat -> page_load) (max_players : Z) (n : Z)
        (st : loop_state) (ts : list DataFrame) (t : DataFrame) :
  (0 < max_players)%Z ->
  page_loop browser max_players (page_range n) (mkState [] []) = Ok st ->
  all_tables st = ts ++ [t] ->
  (Z.of_nat (total_rows ts) < max_players)%Z
  /\ (Forall (fun f => columns f = columns t) ts ->
      exists combined,
        concat (all_tables st) = Ok combined
        /\ Forall2 row_alike
             (flat_map rows ts
                ++ firstn (Z.to_nat max_players - total_rows ts) (rows t))
             (rows (iloc_upto combined max_players))).
Proof.
  intros Hm Hl Hlast.
  destruct (page_loop_spec browser max_players (Z.to_nat n) 0
                           (mkState [] []) st eq_refl eq_refl)
    as (k & _ & _ & Ht & Hshort & _); [|exact Hl|].
  { intros j Hj. replace j with 0 by lia. cbn. exact Hm. }
  rewrite Hlast in Ht. symmetry in Ht.
  destruct (gathered_last _ _ _ _ Ht) as (j & Hj & ->).
  pose proof (Hshort j Hj) as Hlt.
  split; [exact Hlt|].
  intros Hcols. rewrite Hlast.
  rewrite (concat_same_labels (columns t)).
  - eexists. split; [reflexivity|].
    unfold iloc_upto. cbn [rows].
    destruct (Z.leb_spec 0 max_players); [|lia].
    rewrite flat_map_app. cbn [flat_map]. rewrite app_nil_r.
    rewrite firstn_app, flat_map_rows_length.
    rewrite (firstn_all2 (flat_map rows (gathered browser j)))
      by (rewrite flat_map_rows_length; lia).
    apply rows_alike_refl.
  - destruct (gathered browser j); discriminate.
  - apply Forall_app. split; [exact Hcols|]. repeat constructor.
Qed.

Lemma truncation_cuts_last_table_only_witness :
  (Z.of_nat (total_rows [Samples.page_of ["Ann"; "Bo"; "Cy"]]) < 4)%Z
  /\ exists combined,
       concat [Samples.page_of ["Ann"; "Bo"; "Cy"];
               Samples.page_of ["Di"; "Ed"; "Flo"]]
       = Ok combined
       /\ Forall2 row_alike
            (rows (Samples.page_of ["Ann"; "Bo"; "Cy"])
               ++ firstn 1 (rows (Samples.page_of ["Di"; "Ed"; "Flo"])))
            (rows (iloc_upto combined 4)).
Proof.
  destruct (truncation_cuts_last_table_only
              Samples.site 4 2
              (mkState [Samples.page_of ["Ann"; "Bo"; "Cy"];
                        Samples.page_of ["Di"; "Ed"; "Flo"]] [1; 2])
              [Samples.page_of ["Ann"; "Bo"; "Cy"]]
              (Samples.page_of ["Di"; "Ed"; "Flo"]))
    as [Hshort Hcut].
  - lia.
  - vm_compute. reflexivity.
  - reflexivity.
  - split; [exact Hshort|].
    destruct Hcut as (combined & Hc & Hrows); [repeat constructor|].
    exists combined. split; [exact Hc | exact Hrows].
Defined.

(** ** Page addresses *)

Lemma str_length_append (a b : string) :
  String.length (String.append a b) = String.length a + String.length b.
Proof.
  induction a as [|c a IH]; [reflexivity|]. cbn. rewrite IH. reflexivity.
Qed.

Lemma str_append_cancel_l (a b c : string) :
  String.append a b = String.append a c -> b = c.
Proof.
  induction a as [|x a IH]; [trivial|]. cbn. intros H. injection H as H.
  exact (IH H).
Qed.

Lemma str_append_cancel_r (a b c : string) :
  String.append a c = String.append b c -> a = b.
Proof.
  revert b. induction a as [|x a IH]; intros [|y b] H.
  - reflexivity.
  - apply (f_equal String.length) in H.
    cbn in H. rewrite str_length_append in H. lia.
  - apply (f_equal String.length) in H.
    cbn in H. rewrite str_length_append in H. lia.
  - cbn in H. injection H as -> H. f_equal. exact (IH b H).
Qed.

Lemma str_prefix_append (a b : string) :
  String.prefix a (String.append a b) = true.
Proof.
  induction a as [|x a IH]; [destruct b; reflexivity|].
  cbn. destruct (ascii_dec x x); [exact IH | contradiction].
Qed.

Lemma str_nat_inj (p q : nat) : str_nat p = str_nat q -> p = q.
Proof.
  unfold str_nat. intros H. apply Unsigned.to_uint_inj.
  apply (f_equal NilEmpty.uint_of_string) in H.
  rewrite !NilEmpty.usu in H. injection H as H. exact H.
Qed.

Lemma page_url_inj (url : string) (results_per_page : Z) (p q : nat) :
  page_url url results_per_page p = page_url url results_per_page q ->
  p = q.
Proof.
  unfold page_url.
  destruct (Nat.eqb_spec p 1) as [->|Hp]; destruct (Nat.eqb_spec q 1)
    as [->|Hq]; intros H.
  - reflexivity.
  - apply (f_equal String.length) in H.
    rewrite str_length_append in H. cbn in H. lia.
  - apply (f_equal String.length) in H.
    rewrite str_length_append in H. cbn in H. lia.
  - apply str_append_cancel_l, str_append_cancel_l in H.
    apply str_append_cancel_r in H. apply str_nat_inj, H.
Qed.

Lemma NoDup_map_injective {A B : Type} (f : A -> B) (xs : list A) :
  (forall x y, f x = f y -> x = y) -> NoDup xs -> NoDup (map f xs).
Proof.
  intros Hf. induction 1 as [|x xs Hx _ IH]; cbn [map]; constructor;
    [|exact IH].
  intros Hin. apply in_map_iff in Hin. destruct Hin as (y & E & Hy).
  apply Hf in E. subst y. contradiction.
Qed.

(** X14.  Page 1 is opened at the URL as given; every other page at that
    URL extended by its page number and the page size, so that two pages
    never share an address: with a positive target, the addresses the job
    opens are pairwise distinct and start with the given URL. *)
Theorem page_addresses_distinct
        (browser : nat -> page_load) (url : string)
        (max_players results_per_page : Z) (pages : list nat) (j : job) :
  (0 < max_players)%Z ->
  scrape_rankings browser max_players results_per_page = Ok (pages, j) ->
  page_url url results_per_page 1 = url
  /\ (forall p q,
        page_url url results_per_page p = page_url url results_per_page q ->
        p = q)
  /\ NoDup (map (page_url url results_per_page) pages)
  /\ Forall (fun a => String.prefix url a = true)
            (map (page_url url results_per_page) pages)
  /\ (pages <> [] ->
      hd url (map (page_url url results_per_page) pages) = url).
Proof.
  intros Hm H.
  destruct (scrape_rankings_inv _ _ _ _ _ H)
    as (n & st & _ & Hl & _ & ->).
  destruct (page_loop_spec
              browser max_players
              (Z.to_nat n)
              0 (mkState [] []) st eq_refl eq_refl)
    as (k & _ & Hop & _); [|exact Hl|].
  { intros i Hi. replace i with 0 by lia. cbn. exact Hm. }
  split; [reflexivity|]. split; [apply page_url_inj|]. split; [|split].
  - rewrite Hop. apply NoDup_map_injective; [|apply seq_NoDup].
    intros p q. apply page_url_inj.
  - apply Forall_forall. intros a Ha. apply in_map_iff in Ha.
    destruct Ha as (p & <- & _). unfold page_url.
    destruct (p =? 1); [|apply str_prefix_append].
    rewrite <- (str_prefix_append url "").
    f_equal. induction url as [|c u IH]; [reflexivity|].
    cbn. rewrite <- IH. reflexivity.
  - intros _. rewrite Hop. destruct k; reflexivity.
Qed.

Lemma page_addresses_distinct_witness :
  NoDup ["https://lta.example/ranking?id=1";
         "https://lta.example/ranking?id=1&p=2&ps=3"]
  /\ hd "https://lta.example/ranking?id=1"
        (map (page_url "https://lta.example/ranking?id=1" 3) [1; 2])
     = "https://lta.example/ranking?id=1".
Proof.
  destruct (page_addresses_distinct
              Samples.site "https://lta.example/ranking?id=1" 4 3 [1; 2]
              (Saved (Samples.page_of ["Ann"; "Bo"; "Cy"; "Di"])))
    as (_ & _ & Hnd & _ & Hhd); [lia | vm_compute; reflexivity |].
  split; [exact Hnd | apply Hhd; discriminate].
Defined.

(** ** File names and the button handlers *)

Lemma lower_append (a b : string) :
  lower (String.append a b) = String.append (lower a) (lower b).
Proof.
  induction a as [|c a IH]; [reflexivity|]. cbn. rewrite IH. reflexivity.
Qed.

Lemma endswith_append (a suffix : string) :
  endswith suffix (String.append a suffix) = true.
Proof.
  induction a as [|c a IH].
  - cbn [String.append]. destruct suffix as [|c s]; [reflexivity|].
    cbn [endswith]. rewrite String.eqb_refl. reflexivity.
  - cbn [String.append endswith]. rewrite IH. apply orb_true_r.
Qed.

Lemma endswith_nonempty (suffix s : string) :
  suffix <> "" -> endswith suffix s = true -> s <> "".
Proof.
  intros Hs H ->. destruct suffix; [contradiction | discriminate].
Qed.

Lemma stripped_head (a : string) :
  strip a = a ->
  a = "" \/ exists c r, a = String c r /\ isspace c = false.
Proof.
  unfold strip. intros H.
  destruct (lstrip_starts a) as [E|(c & r & E & Hc)].
  - left. rewrite E in H. cbn in H. symmetry. exact H.
  - right. rewrite E in H.
    destruct (rstrip_keeps_head c r Hc) as (r' & E').
    rewrite E' in H. exists c, r'. split; [symmetry; exact H | exact Hc].
Qed.

Lemma rstrip_append (a b : string) :
  rstrip b <> "" -> rstrip (String.append a b) = String.append a (rstrip b).
Proof.
  intros Hb. induction a as [|c a IH]; [reflexivity|].
  cbn [String.append rstrip]. rewrite IH.
  destruct (String.append a (rstrip b)) eqn:E; [|reflexivity].
  exfalso. destruct a; cbn in E; [contradiction | discriminate].
Qed.

Lemma strip_append_csv (a : string) :
  strip a = a -> strip (String.append a ".csv") = String.append a ".csv".
Proof.
  intros H. destruct (stripped_head a H) as [->|(c & r & -> & Hc)];
    [reflexivity|].
  unfold strip. cbn [String.append lstrip]. rewrite Hc.
  change (String c (String.append r ".csv"))
    with (String.append (String c r) ".csv").
  rewrite rstrip_append; [reflexivity | discriminate].
Qed.

Lemma csv_filename_cases (entered default : string) :
  let base := if String.eqb (strip entered) "" then default
              else strip entered in
  (endswith ".csv" (lower base) = true
   /\ csv_filename entered default = base)
  \/ (endswith ".csv" (lower base) = false
      /\ csv_filename entered default = String.append base ".csv").
Proof.
  intros base. unfold csv_filename. fold base.
  destruct (endswith ".csv" (lower base)); [left | right]; split;
    reflexivity.
Qed.

Lemma csv_filename_ends (entered default : string) :
  endswith ".csv" (lower (csv_filename entered default)) = true.
Proof.
  destruct (csv_filename_cases entered default) as [[E ->]|[_ ->]];
    [exact E|].
  rewrite lower_append. apply endswith_append.
Qed.

(** X15.  The file name a handler settles on always ends with ".csv" in
    some letter case and is never empty.  A trimmed entry that already ends
    so is taken as it is; any other non-blank entry is kept as the stem,
    with ".csv" appended; a blank entry yields the default name. *)
Theorem csv_filename_suffix (entered default : string) :
  endswith ".csv" (lower (csv_filename entered default)) = true
  /\ csv_filename entered default <> ""
  /\ (endswith ".csv" (lower (strip entered)) = true ->
      csv_filename entered default = strip entered)
  /\ (strip entered <> "" ->
      endswith ".csv" (lower (strip entered)) = false ->
      csv_filename entered default = String.append (strip entered) ".csv")
  /\ (strip entered = "" ->
      endswith ".csv" (lower default) = true ->
      csv_filename entered default = default).
Proof.
  split; [apply csv_filename_ends|]. split.
  { intros E. pose proof (csv_filename_ends entered default) as H.
    rewrite E in H. discriminate. }
  unfold csv_filename. split; [|split].
  - intros H.
    destruct (String.eqb_spec (strip entered) "") as [E|_].
    + rewrite E in H. discriminate.
    + rewrite H. reflexivity.
  - intros Hne H.
    destruct (String.eqb_spec (strip entered) ""); [contradiction|].
    rewrite H. reflexivity.
  - intros E H. rewrite E. cbn [String.eqb]. rewrite H. reflexivity.
Qed.

Lemma csv_filename_suffix_witness :
  csv_filename "  Juniors.CSV " "rankings_downloaded.csv" = "Juniors.CSV"
  /\ csv_filename " under 12s " "rankings_downloaded.csv"
     = "under 12s.csv"
  /\ csv_filename "   " "rankings_downloaded.csv"
     = "rankings_downloaded.csv".
Proof.
  split; [|split].
  - apply (csv_filename_suffix "  Juniors.CSV " "rankings_downloaded.csv").
    reflexivity.
  - apply (csv_filename_suffix " under 12s " "rankings_downloaded.csv");
      [discriminate | reflexivity].
  - apply (csv_filename_suffix "   " "rankings_downloaded.csv");
      reflexivity.
Defined.

(** X16.  Settling a file name is idempotent: with a trimmed default, a
    name that came out of it, entered again, comes out unchanged whatever
    the default then is. *)
Theorem csv_filename_idempotent (entered default default' : string) :
  strip default = default ->
  csv_filename (csv_filename entered default) default'
  = csv_filename entered default.
Proof.
  intros Hd.
  pose proof (csv_filename_ends entered default) as Hend.
  assert (Hs : strip (csv_filename entered default)
               = csv_filename entered default).
  { assert (Hb : strip (if String.eqb (strip entered) "" then default
                        else strip entered)
                 = (if String.eqb (strip entered) "" then default
                    else strip entered)).
    { destruct (String.eqb (strip entered) "");
        [exact Hd | apply strip_idempotent]. }
    destruct (csv_filename_cases entered default) as [[_ ->]|[_ ->]];
      [exact Hb | apply strip_append_csv, Hb]. }
  unfold csv_filename at 1. rewrite Hs.
  destruct (String.eqb_spec (csv_filename entered default) "") as [E|_].
  - rewrite E in Hend. discriminate.
  - rewrite Hend. reflexivity.
Qed.

Lemma csv_filename_idempotent_witness :
  csv_filename (csv_filename " under 12s " "rankings_downloaded.csv")
               "tournament_players.csv"
  = csv_filename " under 12s " "rankings_downloaded.csv".
Proof. apply csv_filename_idempotent. reflexivity. Defined.

(** X17.  The rankings handler starts a job only on valid input, and on
    every valid input: the count parses to a positive integer, the URL and
    the folder are not blank.  The job then gets the trimmed URL, that count,
    page size 25 and a path whose file name ends with ".csv"; its page
    planning never divides by zero, and for a count below 2^53 it plans at
    least one page.  The tournament handler likewise starts its job exactly
    when URL and folder are not blank. *)
Theorem handlers_start_valid_jobs
        (py_int : string -> option Z)
        (path_join : string -> string -> string) (f : form) :
  (forall url m r out,
     start_rankings py_int path_join f = RunRankings url m r out
     <-> (py_int (strip (max_players_var f)) = Some m
          /\ (0 < m)%Z
          /\ r = 25%Z
          /\ url = strip (rankings_url_var f) /\ url <> ""
          /\ strip (output_folder_var f) <> ""
          /\ out = path_join (strip (output_folder_var f))
                     (csv_filename (rankings_file_var f)
                                   "rankings_downloaded.csv")))
  /\ (forall url m r out,
        start_rankings py_int path_join f = RunRankings url m r out ->
        pages_needed m r <> Raise ZeroDivisionError
        /\ ((m < 2 ^ 53)%Z ->
            exists n, pages_needed m r = Ok n /\ (1 <= n)%Z))
  /\ (forall url out,
        start_tournament path_join f = RunTournament url out
        <-> (url = strip (tournament_url_var f) /\ url <> ""
             /\ strip (output_folder_var f) <> ""
             /\ out = path_join (strip (output_folder_var f))
                        (csv_filename (tournament_file_var f)
                                      "tournament_players.csv"))).
Proof.
  assert (Hrank :
            forall url m r out,
              start_rankings py_int path_join f = RunRankings url m r out
              <-> (py_int (strip (max_players_var f)) = Some m
                   /\ (0 < m)%Z
                   /\ r = 25%Z
                   /\ url = strip (rankings_url_var f) /\ url <> ""
                   /\ strip (output_folder_var f) <> ""
                   /\ out = path_join (strip (output_folder_var f))
                              (csv_filename (rankings_file_var f)
                                            "rankings_downloaded.csv"))).
  { intros url m r out. unfold start_rankings. split.
    - destruct (py_int (strip (max_players_var f))) as [m'|];
        [|discriminate].
      destruct (Z.leb_spec m' 0); [discriminate|].
      destruct (String.eqb_spec (strip (rankings_url_var f)) "");
        [discriminate|].
      destruct (String.eqb_spec (strip (output_folder_var f)) "");
        [discriminate|].
      intros Heq. injection Heq as <- <- <- <-. repeat split; assumption.
    - intros (-> & Hm & -> & -> & Hu & Hf & ->).
      destruct (Z.leb_spec m 0); [lia|].
      destruct (String.eqb_spec (strip (rankings_url_var f)) "");
        [contradiction|].
      destruct (String.eqb_spec (strip (output_folder_var f)) "");
        [contradiction|].
      reflexivity. }
  split; [exact Hrank|]. split.
  - intros url m r out H. apply Hrank in H.
    destruct H as (_ & Hm & -> & _). split.
    + unfold pages_needed. cbn [Z.eqb].
      destruct (m =? 0)%Z; [discriminate|].
      destruct (binary64_of_ratio (Z.abs m) (Z.abs 25)) as [[m' qe]|];
        [|discriminate].
      destruct (xorb (m <? 0)%Z (25 <? 0)%Z); discriminate.
    + intros Hb. exists (ceil_div m 25).
      split; [apply pages_needed_exact; [lia | split; reflexivity]|].
      pose proof (ceil_div_bounds m 25 ltac:(lia)). lia.
  - intros url out. unfold start_tournament. split.
    + destruct (String.eqb_spec (strip (tournament_url_var f)) "");
        [discriminate|].
      destruct (String.eqb_spec (strip (output_folder_var f)) "");
        [discriminate|].
      intros Heq. injection Heq as <- <-. repeat split; assumption.
    + intros (-> & Hu & Hf & ->).
      destruct (String.eqb_spec (strip (tournament_url_var f)) "");
        [contradiction|].
      destruct (String.eqb_spec (strip (output_folder_var f)) "");
        [contradiction|].
      reflexivity.
Qed.

Lemma handlers_start_valid_jobs_witness :
  start_rankings SampleForm.digits SampleForm.join SampleForm.filled
  = RunRankings "https://lta.example/ranking?id=1" 40 25
                "/home/ann/lta/juniors.csv"
  /\ (exists n, pages_needed 40 25 = Ok n /\ (1 <= n)%Z)
  /\ pages_needed 40 25 <> Raise ZeroDivisionError
  /\ start_tournament SampleForm.join SampleForm.filled
     = RunTournament "https://lta.example/event?id=2"
                     "/home/ann/lta/entries.CSV".
Proof.
  destruct (handlers_start_valid_jobs
              SampleForm.digits SampleForm.join SampleForm.filled)
    as (Hr & Hn & Ht).
  assert (E : start_rankings SampleForm.digits SampleForm.join
                             SampleForm.filled
              = RunRankings "https://lta.example/ranking?id=1" 40 25
                            "/home/ann/lta/juniors.csv").
  { apply Hr. repeat split; try reflexivity; try discriminate. }
  split; [exact E|].
  split; [apply (proj2 (Hn _ _ _ _ E)); reflexivity|].
  split; [exact (proj1 (Hn _ _ _ _ E))|].
  apply Ht. repeat split; try reflexivity; discriminate.
Defined.

(** ** What reaches the files *)

Lemma ranking_noise_select (keep : string -> bool) (cols : list string)
      (r : list cell) :
  keep "Rank" = true -> keep "Player" = true ->
  ranking_noise (select (map keep cols) cols) (select (map keep cols) r)
  = ranking_noise cols r.
Proof.
  intros Hr Hp. unfold ranking_noise.
  rewrite !(cell_of_select keep) by assumption. reflexivity.
Qed.

Lemma In_firstn {A : Type} (k : nat) (xs : list A) (x : A) :
  In x (firstn k xs) -> In x xs.
Proof.
  revert k. induction xs as [|y xs IH]; intros [|k] H; cbn in H;
    try contradiction.
  destruct H as [->|H]; [left; reflexivity | right; exact (IH k H)].
Qed.

(** X18.  When the tables accumulated over the pages share their labels,
    the frame the rankings job saves holds no pagination row and no repeated
    header row: under its labels, no Rank cell is a text containing "page"
    or "results" and no Player cell is a text that is blank or, trimmed,
    "Player".  (A row whose Player cell is missing is not excluded.) *)
Theorem saved_rankings_rows_clean
        (browser : nat -> page_load) (max_players results_per_page : Z)
        (pages : list nat) (out : DataFrame) (cols : list string) :
  (0 < max_players)%Z ->
  scrape_rankings browser max_players results_per_page
  = Ok (pages, Saved out) ->
  Forall (fun t => columns t = cols)
         (gathered browser (List.length pages)) ->
  Forall (fun r => rank_text_ok (cell_of (columns out) r "Rank")
                   /\ player_text_ok (cell_of (columns out) r "Player"))
         (rows out).
Proof.
  intros Hm H Hcols.
  destruct (scrape_rankings_inv _ _ _ _ _ H)
    as (n & st & _ & Hl & Hf & ->).
  destruct (page_loop_spec
              browser max_players
              (Z.to_nat n)
              0 (mkState [] []) st eq_refl eq_refl)
    as (k & _ & Hop & Htab & _); [|exact Hl|].
  { intros i Hi. replace i with 0 by lia. cbn. exact Hm. }
  rewrite Hop, length_seq, <- Htab in Hcols.
  destruct (finish_saved _ _ _ Hf) as (Hne & combined & Hc & Hd).
  rewrite (concat_same_labels cols _ Hne Hcols) in Hc.
  injection Hc as <-.
  assert (Hclean : forall r,
             In r (firstn (Z.to_nat max_players)
                          (flat_map rows (all_tables st))) ->
             ranking_noise cols r = false).
  { intros r Hr. apply In_firstn, in_flat_map in Hr.
    destruct Hr as (t & Ht & Hrt).
    destruct (page_loop_origin _ _ _ _ _ Hl t Ht)
      as [[]|(p & parsed & _ & _ & He & _)].
    rewrite Forall_forall in Hcols. rewrite <- (Hcols t Ht).
    destruct (ranking_some_shape _ _ He) as (ts & f & _ & _ & _ & _ & ->).
    cbn [columns rows] in *. apply in_map_iff in Hrt.
    destruct Hrt as (r0 & <- & Hr0). apply filter_In in Hr0.
    rewrite ranking_noise_projected. apply negb_true_iff, Hr0. }
  unfold iloc_upto in Hd. cbn [columns rows] in Hd.
  destruct (Z.leb_spec 0 max_players); [|lia].
  destruct (drop_rank1_cases _ _ Hd) as [[_ ->]|[_ ->]];
    cbn [columns rows loc_columns].
  - apply Forall_forall. intros x Hx. apply not_noise_text_ok, Hclean, Hx.
  - apply Forall_forall. intros x Hx. apply in_map_iff in Hx.
    destruct Hx as (r & <- & Hr). apply not_noise_text_ok.
    rewrite (ranking_noise_select (fun c => negb (String.eqb c "Rank.1")))
      by reflexivity.
    apply Hclean, Hr.
Qed.

Lemma saved_rankings_rows_clean_witness :
  Forall (fun r => rank_text_ok (cell_of ["Rank"; "Player"] r "Rank")
                   /\ player_text_ok (cell_of ["Rank"; "Player"] r "Player"))
         (rows (Samples.page_of ["Ann"; "Bo"; "Cy"; "Di"])).
Proof.
  apply (saved_rankings_rows_clean
           Samples.site 4 3 [1; 2]
           (Samples.page_of ["Ann"; "Bo"; "Cy"; "Di"]) ["Rank"; "Player"]).
  - lia.
  - vm_compute. reflexivity.
  - vm_compute. repeat constructor.
Defined.
